(** * plain_to_v2_converter: the .plain.pk to .v2.pk conversion engine

    A shallow embedding of [plain_to_v2_converter.py] and the properties of
    its specification.

    Conventions of the embedding:
    - a Python [bytes] object is a [list byte];
    - a Python [str] is a [string]; archive entry names are held as their
      UTF-8 bytes, on which every string operation of the converter
      (comparison with ASCII literals, [startswith], [endswith], [in],
      [replace], dropping a four-character ASCII suffix) acts as it does on
      the code points;
    - a Python exception is a value of [exn]; a computation that may raise
      returns a [result];
    - Python floats are IEEE binary64 numbers, here the kernel's primitive
      floats;
    - the [print] calls of the converter carry no contract and are left out. *)

From Stdlib Require Import ZArith List String Ascii Bool Lia.
From Stdlib.Strings Require Import Byte.
From Stdlib Require Import Uint63 Floats.
Import ListNotations.

(** ** Exceptions and results *)

Inductive exn : Type :=
| FileNotFoundError (msg : string)
| ValueError (msg : string)
| ZeroDivisionError (msg : string)
| OverflowError (msg : string)
| KeyError (msg : string)
| OSError (msg : string).

Inductive result (A : Type) : Type :=
| Ok (a : A)
| Raise (e : exn).

Arguments Ok {A} a.
Arguments Raise {A} e.

Definition bind {A B : Type} (r : result A) (k : A -> result B) : result B :=
  match r with
  | Ok a => k a
  | Raise e => Raise e
  end.

Notation "x <- r ;; k" := (bind r (fun x => k))
  (at level 61, r at next level, right associativity).

Definition bytes : Type := list byte.

(** ** Python built-ins used by the converter *)

Module Py.

(** [len(b)] as a Python integer. *)
Definition len (b : bytes) : Z := Z.of_nat (List.length b).

(** [s.startswith(p)] *)
Definition startswith (s p : string) : bool := String.prefix p s.

(** [s.endswith(p)] *)
Definition endswith (s p : string) : bool :=
  (String.length p <=? String.length s)%nat
  && String.eqb (substring (String.length s - String.length p) (String.length p) s) p.

(** [sub in s] *)
Fixpoint contains (sub s : string) : bool :=
  String.prefix sub s
  || match s with
     | EmptyString => false
     | String _ rest => contains sub rest
     end.

(** [s.replace(old, new)] for a non-empty [old]: every occurrence of [old],
    found from left to right without overlap, is replaced.  [skip] counts the
    characters of a match that remain to be dropped. *)
Fixpoint replace_from (skip : nat) (old new s : string) : string :=
  match s with
  | EmptyString => EmptyString
  | String c rest =>
      match skip with
      | S k => replace_from k old new rest
      | O =>
          if String.prefix old s
          then new ++ replace_from (String.length old - 1) old new rest
          else String c (replace_from O old new rest)
      end
  end.

Definition replace (s old new : string) : string := replace_from O old new s.

(** [s[:-4]] *)
Definition drop_last4 (s : string) : string :=
  substring 0 (String.length s - 4) s.

(** [c.upper()] on one character, [s.upper()] on a string (ASCII letters). *)
Definition upper_ascii (c : ascii) : ascii :=
  let n := nat_of_ascii c in
  if ((97 <=? n) && (n <=? 122))%nat then ascii_of_nat (n - 32) else c.

Fixpoint upper (s : string) : string :=
  match s with
  | EmptyString => EmptyString
  | String c rest => String (upper_ascii c) (upper rest)
  end.

(** [int.from_bytes(b, 'big')] *)
Definition int_from_bytes_big (b : bytes) : Z :=
  fold_left (fun acc x => acc * 256 + Z.of_N (Byte.to_N x))%Z b 0%Z.

(** The lowercase hexadecimal digit of a value below sixteen. *)
Definition hex_digit (d : Z) : ascii :=
  if (d <? 10)%Z then ascii_of_N (Z.to_N (48 + d)) else ascii_of_N (Z.to_N (87 + d)).

(** ['%x' % n] for [0 <= n]: the digits, most significant first. *)
Fixpoint hex_digits_from (fuel : nat) (n : Z) (acc : string) : string :=
  match fuel with
  | O => acc
  | S f =>
      let acc' := String (hex_digit (n mod 16)) acc in
      if (n / 16 =? 0)%Z then acc' else hex_digits_from f (n / 16) acc'
  end.

Definition format_x (n : Z) : string :=
  hex_digits_from (S (Z.to_nat (Z.log2 n))) n EmptyString.

Fixpoint zeros (k : nat) : string :=
  match k with
  | O => EmptyString
  | S k' => String "0" (zeros k')
  end.

(** ['%032x' % n]: [format_x] padded with zeros on the left to 32 characters. *)
Definition format_032x (n : Z) : string :=
  let s := format_x n in
  zeros (32 - String.length s) ++ s.

(** [x / y] on floats. *)
Definition truediv (x y : float) : result float :=
  if PrimFloat.eqb y 0%float
  then Raise (ZeroDivisionError "float division by zero")
  else Ok (x / y)%float.

(** [float(n)] for an integer below [2^63] (every length is). *)
Definition float_of_int (n : Z) : float := PrimFloat.of_uint63 (Uint63.of_Z n).

(** [int(x)] on a float: truncation towards zero. *)
Definition int_of_float (x : float) : result Z :=
  match Prim2SF x with
  | S754_zero _ => Ok 0%Z
  | S754_finite s m e =>
      let a := match e with
               | Z.neg p => Z.shiftr (Z.pos m) (Z.pos p)
               | _ => Z.shiftl (Z.pos m) e
               end in
      Ok (if s then - a else a)%Z
  | S754_infinity _ => Raise (OverflowError "cannot convert float infinity to integer")
  | S754_nan => Raise (ValueError "cannot convert float NaN to integer")
  end.

End Py.

(** ** The key and the round count *)

(** [k.to_bytes(4, 'little')] for [0 <= k < 2^32], as the four words of the
    key are. *)
Definition to_bytes_4_little (k : Z) : bytes :=
  map (fun i => match Byte.of_N (Z.to_N (Z.land (Z.shiftr k (8 * i)) 255)) with
                | Some b => b
                | None => x00
                end) [0; 1; 2; 3]%Z.

Definition vectkey_to_bytes (key_vect : list Z) : bytes :=
  List.concat (map to_bytes_4_little key_vect).

(** [int(1 + 52 / (len(buffer) / 4))].  Both divisions are true divisions:
    [len(buffer) / 4] is the quotient of two integers rounded to a float, the
    float of the length divided by 4 (a power of two), and [52 / _] divides
    by that float, raising [ZeroDivisionError] when it is zero. *)
Definition lunii_tea_rounds (buffer : bytes) : result Z :=
  q <- Py.truediv (Py.float_of_int (Py.len buffer)) 4%float ;;
  r <- Py.truediv 52%float q ;;
  Py.int_of_float (1 + r)%float.

Definition raw_key_generic : list Z :=
  [0x91BD7A0A; 0xA75440A9; 0xBBD49D6C; 0xE0DCC0E3]%Z.

Definition lunii_generic_key : bytes := vectkey_to_bytes raw_key_generic.

(** ** The cipher: the [xxtea] package

    [xxtea.encrypt] is the XXTEA block cipher of the third-party [xxtea]
    package, which the converter imports; its code is not in the repository.
    The module below gives the one way the converter calls it,
    [xxtea.encrypt(data, key, padding=False, rounds=r)]: the conversion of the
    bytes to little-endian 32-bit words, the mixing rounds of [btea], the
    conversion back, and before them the checks of the arguments.  The
    properties below do not depend on the text of the two messages, and of
    the mixing they use only that it keeps the number of words. *)

Module XXTEA.

Definition wrap32 (x : Z) : Z := (x mod 2 ^ 32)%Z.

Definition DELTA : Z := 0x9e3779b9%Z.

Definition byte_of_Z (x : Z) : byte :=
  match Byte.of_N (Z.to_N (Z.land x 255)) with
  | Some b => b
  | None => x00
  end.

Definition Z_of_byte (b : byte) : Z := Z.of_N (Byte.to_N b).

(** [out[i >> 2] |= s[i] << ((i & 3) << 3)] for every byte of the input. *)
Fixpoint bytes2longs (s : bytes) : list Z :=
  match s with
  | b0 :: b1 :: b2 :: b3 :: rest =>
      Z.lor (Z_of_byte b0)
        (Z.lor (Z.shiftl (Z_of_byte b1) 8)
           (Z.lor (Z.shiftl (Z_of_byte b2) 16) (Z.shiftl (Z_of_byte b3) 24)))
      :: bytes2longs rest
  | [] => []
  | [b0] => [Z_of_byte b0]
  | [b0; b1] => [Z.lor (Z_of_byte b0) (Z.shiftl (Z_of_byte b1) 8)]
  | [b0; b1; b2] =>
      [Z.lor (Z_of_byte b0)
         (Z.lor (Z.shiftl (Z_of_byte b1) 8) (Z.shiftl (Z_of_byte b2) 16))]
  end.

(** [s[4 * i + j] = (in[i] >> (j << 3)) & 0xff] *)
Definition long2bytes (w : Z) : bytes :=
  map (fun j => byte_of_Z (Z.shiftr w (8 * j))) [0; 1; 2; 3]%Z.

Definition longs2bytes (v : list Z) : bytes := flat_map long2bytes v.

(** [v[p] = x] *)
Fixpoint store (p : nat) (x : Z) (v : list Z) : list Z :=
  match v, p with
  | [], _ => []
  | _ :: t, O => x :: t
  | h :: t, S p' => h :: store p' x t
  end.

(** The macro [MX]. *)
Definition MX (k : list Z) (sum y z p e : Z) : Z :=
  Z.lxor
    (wrap32 (Z.lxor (Z.shiftr z 5) (wrap32 (Z.shiftl y 2))
             + Z.lxor (Z.shiftr y 3) (wrap32 (Z.shiftl z 4))))
    (wrap32 (Z.lxor sum y
             + Z.lxor (nth (Z.to_nat (Z.lxor (Z.land p 3) e)) k 0%Z) z)).

(** One step of the inner loop: [y = v[p + 1]; z = v[p] += MX]. *)
Definition mix_at (k : list Z) (sum e : Z) (st : list Z * Z) (p : nat) : list Z * Z :=
  let '(v, z) := st in
  let y := nth (S p) v 0%Z in
  let x := wrap32 (nth p v 0%Z + MX k sum y z (Z.of_nat p) e) in
  (store p x v, x).

(** One pass of the [do] loop for the incremented [sum]: the inner loop over
    [p = 0 .. n - 2], then [y = v[0]; z = v[n - 1] += MX] with [p = n - 1]. *)
Definition mix_round (k : list Z) (sum : Z) (st : list Z * Z) : list Z * Z :=
  let n := List.length (fst st) in
  let e := Z.land (Z.shiftr sum 2) 3 in
  let '(v, z) := fold_left (mix_at k sum e) (seq 0 (n - 1)) st in
  let y := nth 0 v 0%Z in
  let x := wrap32 (nth (n - 1) v 0%Z + MX k sum y z (Z.of_nat (n - 1)) e) in
  (store (n - 1) x v, x).

(** [do { sum += DELTA; ... } while (--rounds);] *)
Fixpoint mix_rounds (rounds : nat) (k : list Z) (sum : Z) (st : list Z * Z) : list Z :=
  match rounds with
  | O => fst st
  | S r =>
      let sum' := wrap32 (sum + DELTA) in
      mix_rounds r k sum' (mix_round k sum' st)
  end.

(** [btea(v, n, k, rounds)], coding part, for [n > 1]; a round count of
    zero selects the default [6 + 52 / n]. *)
Definition btea (v : list Z) (k : list Z) (rounds : Z) : list Z :=
  let n := Z.of_nat (List.length v) in
  let rounds := if (rounds =? 0)%Z then (6 + 52 / n)%Z else rounds in
  mix_rounds (Z.to_nat rounds) k 0%Z (v, nth (List.length v - 1) v 0%Z).

(** Modelled from the spec: [xxtea.encrypt(data, key, padding=False,
    rounds=rounds)], the cipher adapter of section 4.1, whose code is the
    package's and not the repository's.  It takes a key of 16 bytes, a buffer
    whose length is a multiple of 4 and an explicit round count, adds no
    padding and gives a buffer of the same length; it fails on a buffer that is
    empty or not word-aligned.  The package refuses a buffer of 4 bytes as
    well: the cipher mixes at least two words. *)
Definition encrypt (data key : bytes) (rounds : Z) : result bytes :=
  if negb (List.length key =? 16)%nat then
    Raise (ValueError "Need a 16-byte key.")
  else if (negb (List.length data mod 4 =? 0) || (List.length data <? 8))%nat then
    Raise (ValueError
      "Data length must be a multiple of 4 bytes and must not be less than 8 bytes")
  else
    Ok (longs2bytes (btea (bytes2longs data) (bytes2longs key) rounds)).

(** The arguments that [encrypt] accepts. *)
Definition accepts (data key : bytes) : Prop :=
  List.length key = 16%nat
  /\ (List.length data mod 4 = 0)%nat /\ (8 <= List.length data)%nat.

End XXTEA.

(** ** The partial encryption transform *)

(** [data[:n]] and [data[n:]] are [firstn n data] and [skipn n data]. *)
Definition encrypt_first_512_bytes (data key : bytes) : result bytes :=
  if (List.length data =? 0)%nat then Ok data
  else
    let encrypt_len := Nat.min 512 (List.length data) in
    let to_encrypt := firstn encrypt_len data in
    let remainder := skipn encrypt_len data in
    rounds <- lunii_tea_rounds to_encrypt ;;
    encrypted <- XXTEA.encrypt to_encrypt key rounds ;;
    Ok (encrypted ++ remainder).

(** ** Paths, archives and the file system *)

(** A [pathlib.Path] after parsing: the anchor (empty, or the root) and the
    components. *)
Record Path : Type := { anchor : string; parts : list string }.

(** [p.name] *)
Definition path_name (p : Path) : string := last (parts p) EmptyString.

(** [p.parent] *)
Definition path_parent (p : Path) : Path :=
  {| anchor := anchor p; parts := removelast (parts p) |}.

(** [p / child] for a relative [child] of one component. *)
Definition path_join (p : Path) (child : string) : Path :=
  {| anchor := anchor p; parts := parts p ++ [child] |}.

(** [str(p)] *)
Definition path_str (p : Path) : string :=
  match anchor p, parts p with
  | EmptyString, [] => "."
  | a, ps => a ++ String.concat "/" ps
  end.

(** A zip archive as read: its entries in the order of its directory, each
    with its name and with what reading it gives, its bytes or the exception
    that reading it raises (an encrypted entry, a bad checksum, a compression
    that is not supported). *)
Definition archive : Type := list (string * result bytes).

(** The entries written to a destination, names and bytes, in order. *)
Definition entry_list : Type := list (string * bytes).

(** [z.namelist()] *)
Definition namelist (z : archive) : list string := map fst z.

(** [z.read(name)]: of several entries of one name the last is the one
    read, and reading it gives its bytes or raises; a name that the archive
    does not hold raises [KeyError]. *)
Definition zip_read (z : archive) (name : string) : result bytes :=
  match find (fun e => String.eqb (fst e) name) (rev z) with
  | Some e => snd e
  | None => Raise (KeyError "There is no item named that in the archive")
  end.

(** The file system of a call.  What the converter asks of it: whether a
    path exists, the archive that opening a path for reading gives, and
    whether a path can be opened for writing.  And what it is besides:
    whether two paths name one file (as [os.path.samefile] tells), which the
    converter never asks.  Opening for writing truncates the file, so that a
    destination that is the source itself leaves nothing to read: the model
    reads from the archive as it was opened, and holds where the destination
    is another file than the source ([other_file]).  Writing an entry to the
    opened destination is taken to succeed. *)
Record World : Type := {
  path_exists : Path -> bool;
  open_read : Path -> result archive;
  open_write : Path -> result unit;
  same_file : Path -> Path -> bool
}.

(** The paths [p] and [q] are two paths and name two files. *)
Definition other_file (w : World) (p q : Path) : Prop :=
  p <> q /\ same_file w p q = false.

(** [UUID(bytes=b)], and its [hex] attribute. *)
Record UUID : Type := { uuid_int : Z }.

Definition UUID_from_bytes (b : bytes) : result UUID :=
  if negb (List.length b =? 16)%nat
  then Raise (ValueError "bytes is not a 16-char string")
  else Ok {| uuid_int := Py.int_from_bytes_big b |}.

Definition UUID_hex (u : UUID) : string := Py.format_032x (uuid_int u).

(** ** The conversion *)

(** The body of the loop over [file_list] for one entry name: [Ok None] when
    the entry is skipped ([continue]), [Ok (Some (new_name, output_data))]
    when it reaches [zip_out.writestr]. *)
Definition convert_entry (uuid_hex : string) (zip_in : archive) (file_name : string)
  : result (option (string * bytes)) :=
  if existsb (String.eqb file_name) ["uuid.bin"; "_metadata.json"; "_thumbnail.png"]%string
  then Ok None
  else
    data <- zip_read zip_in file_name ;;
    if String.eqb file_name "ni" || String.eqb file_name "nm" then
      let new_name := (uuid_hex ++ "/" ++ file_name)%string in
      let output_data := data in
      Ok (Some (new_name, output_data))
    else if Py.endswith file_name ".plain" then
      let base_name := Py.replace file_name ".plain" "" in
      let new_name := (uuid_hex ++ "/" ++ base_name)%string in
      output_data <- encrypt_first_512_bytes data lunii_generic_key ;;
      Ok (Some (new_name, output_data))
    else if Py.startswith file_name "rf/" || Py.startswith file_name "rf\"
            || Py.contains "/rf/" file_name || Py.contains "\rf\" file_name then
      let base_name := Py.replace file_name "\" "/" in
      let base_name := if Py.endswith base_name ".bmp" then Py.drop_last4 base_name
                       else base_name in
      let new_name := (uuid_hex ++ "/" ++ base_name)%string in
      output_data <- encrypt_first_512_bytes data lunii_generic_key ;;
      Ok (Some (new_name, output_data))
    else if Py.startswith file_name "sf/" || Py.startswith file_name "sf\"
            || Py.contains "/sf/" file_name || Py.contains "\sf\" file_name then
      let base_name := Py.replace file_name "\" "/" in
      let base_name := if Py.endswith base_name ".mp3" then Py.drop_last4 base_name
                       else base_name in
      let new_name := (uuid_hex ++ "/" ++ base_name)%string in
      output_data <- encrypt_first_512_bytes data lunii_generic_key ;;
      Ok (Some (new_name, output_data))
    else Ok None.

(** The destination archive while it is written: the entries given to
    [writestr], in order ([writestr] appends; a name already present is
    written again, with a warning), and the counter [files_processed]. *)
Record zip_writer : Type := { entries : entry_list; files_processed : Z }.

(** [zip_out.writestr(new_name, output_data); files_processed += 1] *)
Definition writestr (out : zip_writer) (e : string * bytes) : zip_writer :=
  {| entries := entries out ++ [e]; files_processed := files_processed out + 1 |}.

(** The loop [for file_name in file_list]: the writer as the loop leaves it,
    and the exception that ended it, if one did. *)
Fixpoint convert_entries (uuid_hex : string) (zip_in : archive)
  (file_list : list string) (out : zip_writer) : zip_writer * option exn :=
  match file_list with
  | [] => (out, None)
  | file_name :: rest =>
      match convert_entry uuid_hex zip_in file_name with
      | Raise e => (out, Some e)
      | Ok None => convert_entries uuid_hex zip_in rest out
      | Ok (Some e) => convert_entries uuid_hex zip_in rest (writestr out e)
      end
  end.

(** One call of the converter: what it returns or raises, the path it gave
    to [ZipFile(_, 'w')] (none when the call ended before it came to open the
    destination), and the entries it wrote there. *)
Record run : Type := {
  outcome : result Path;
  opened : option Path;
  written : entry_list
}.

(** A call that an exception ends before the destination is opened. *)
Definition raised (e : exn) : run :=
  {| outcome := Raise e; opened := None; written := [] |}.

Definition convert_plain_to_v2 (w : World) (input_path : Path) (output_path : option Path)
  : run :=
  if negb (path_exists w input_path) then
    raised (FileNotFoundError ("Input file not found: " ++ path_str input_path))
  else if negb (Py.endswith (path_name input_path) ".plain.pk") then
    raised (ValueError ("Input file must be a .plain.pk file: " ++ path_str input_path))
  else
    match open_read w input_path with
    | Raise e => raised e
    | Ok zip_in =>
        let file_list := namelist zip_in in
        if negb (existsb (String.eqb "uuid.bin") file_list) then
          raised (ValueError "No uuid.bin found in archive")
        else
          match zip_read zip_in "uuid.bin" with
          | Raise e => raised e
          | Ok uuid_bytes =>
              match UUID_from_bytes uuid_bytes with
              | Raise e => raised e
              | Ok story_uuid =>
                  let uuid_hex := Py.upper (UUID_hex story_uuid) in
                  let output_path :=
                    match output_path with
                    | None => path_join (path_parent input_path) (uuid_hex ++ ".v2.pk")
                    | Some p => p
                    end in
                  match open_write w output_path with
                  | Raise e =>
                      {| outcome := Raise e; opened := Some output_path; written := [] |}
                  | Ok _ =>
                      let '(zip_out, failure) :=
                        convert_entries uuid_hex zip_in file_list
                          {| entries := []; files_processed := 0 |} in
                      {| outcome := match failure with
                                    | Some e => Raise e
                                    | None => Ok output_path
                                    end;
                         opened := Some output_path;
                         written := entries zip_out |}
                  end
              end
          end
    end.

(** The uppercase hexadecimal rendering of an identifier, two digits a byte. *)
Definition HEX_digit (d : Z) : ascii :=
  if (d <? 10)%Z then ascii_of_N (Z.to_N (48 + d)) else ascii_of_N (Z.to_N (55 + d)).

Definition byte_HEX (b : byte) : string :=
  let v := Z.of_N (Byte.to_N b) in
  String (HEX_digit (v / 16)) (String (HEX_digit (v mod 16)) EmptyString).

Definition hex_upper (b : bytes) : string :=
  fold_right (fun x s => byte_HEX x ++ s)%string EmptyString b.

(** The round count as a function of the length of the buffer alone. *)
Definition rounds_of_length (n : Z) : result Z :=
  q <- Py.truediv (Py.float_of_int n) 4%float ;;
  r <- Py.truediv 52%float q ;;
  Py.int_of_float (1 + r)%float.

(** For a buffer of [k] bytes the floating-point computation gives
    [1 + floor(208 / k)]. *)
Definition rounds_checked (k : nat) : bool :=
  match rounds_of_length (Z.of_nat k) with
  | Ok r => (r =? 1 + 208 / Z.of_nat k)%Z
  | Raise _ => false
  end.

(** The part of a buffer given to the cipher, and the part kept. *)
Definition head_of (B : bytes) : bytes := firstn (Nat.min 512 (List.length B)) B.
Definition tail_of (B : bytes) : bytes := skipn (Nat.min 512 (List.length B)) B.

(** The [k] lowest hexadecimal digits of [n], most significant first, put
    before [acc]; [digit] renders one digit. *)
Fixpoint fixed_digits (digit : Z -> ascii) (k : nat) (n : Z) (acc : string) : string :=
  match k with
  | O => acc
  | S k' => fixed_digits digit k' (n / 16)%Z (String (digit (n mod 16)%Z) acc)
  end.

(** What the loop writes for one entry name: nothing when the entry is
    skipped (or the body raises). *)
Definition written_for (uuid_hex : string) (zip_in : archive) (file_name : string)
  : entry_list :=
  match convert_entry uuid_hex zip_in file_name with
  | Ok (Some e) => [e]
  | _ => []
  end.

(** The writer before the loop. *)
Definition new_writer : zip_writer := {| entries := []; files_processed := 0 |}.

(** The name of an entry without its last six characters, the suffix
    [.plain] when the name ends with it: what the specification calls the
    name without the reserved suffix. *)
Definition without_plain_suffix (file_name : string) : string :=
  substring 0 (String.length file_name - 6) file_name.

(** A file system in which every path exists, reading any path gives the
    archive [z], any path can be written, and no two paths name one file. *)
Definition world_of (z : archive) : World :=
  {| path_exists := fun _ => true;
     open_read := fun _ => Ok z;
     open_write := fun _ => Ok tt;
     same_file := fun _ _ => false |}.

Definition story_path : Path :=
  {| anchor := "/"; parts := ["tmp"; "story.plain.pk"]%string |}.

Definition zero_hex : string := "00000000000000000000000000000000".

(** An archive with an identifier of sixteen zero bytes, a node index, a
    plain story index of 600 bytes and a file the destination format does
    not know. *)
Definition small_archive : archive :=
  [("uuid.bin", Ok (repeat x00 16)); ("ni", Ok [x01; x02]);
   ("si.plain", Ok (repeat x2a 600)); ("notes.txt", Ok [x00])]%string.

(** An archive in which one image is stored twice, under a name with forward
    slashes and under a name with backslashes. *)
Definition colliding_archive : archive :=
  [("uuid.bin", Ok (repeat x00 16)); ("rf/000/a.bmp", Ok (repeat x01 8));
   ("rf\000\a.bmp", Ok (repeat x02 8))]%string.

(** An archive without identifier, and one whose identifier has 15 bytes. *)
Definition anonymous_archive : archive := [("ni", Ok [x01; x02])]%string.

Definition short_uuid_archive : archive :=
  [("uuid.bin", Ok (repeat x00 15)); ("ni", Ok [x01; x02])]%string.

(** ** What the loop body decides from the name of an entry *)

(** The four outcomes of the chain of tests in the loop body, with the name
    the entry gets under the identifier when it is written. *)
Inductive disposition : Type :=
| Drop
| PassThrough (base_name : string)
| TransformAndRename (base_name : string)
| Unknown.

(** The chain of tests of the loop body, on the name alone. *)
Definition classify (file_name : string) : disposition :=
  if existsb (String.eqb file_name) ["uuid.bin"; "_metadata.json"; "_thumbnail.png"]%string
  then Drop
  else if String.eqb file_name "ni" || String.eqb file_name "nm" then
    PassThrough file_name
  else if Py.endswith file_name ".plain" then
    TransformAndRename (Py.replace file_name ".plain" "")
  else if Py.startswith file_name "rf/" || Py.startswith file_name "rf\"
          || Py.contains "/rf/" file_name || Py.contains "\rf\" file_name then
    let base_name := Py.replace file_name "\" "/" in
    TransformAndRename
      (if Py.endswith base_name ".bmp" then Py.drop_last4 base_name else base_name)
  else if Py.startswith file_name "sf/" || Py.startswith file_name "sf\"
          || Py.contains "/sf/" file_name || Py.contains "\sf\" file_name then
    let base_name := Py.replace file_name "\" "/" in
    TransformAndRename
      (if Py.endswith base_name ".mp3" then Py.drop_last4 base_name else base_name)
  else Unknown.

(** The names written for an entry name, under the identifier [uuid_hex]. *)
Definition names_for (uuid_hex : string) (file_name : string) : list string :=
  match classify file_name with
  | PassThrough t | TransformAndRename t => [(uuid_hex ++ "/" ++ t)%string]
  | Drop | Unknown => []
  end.

(** The entries that the loop passes over. *)
Definition is_skipped (file_name : string) : bool :=
  match classify file_name with
  | Drop | Unknown => true
  | PassThrough _ | TransformAndRename _ => false
  end.

(** The destination path of a call: the one given, or by default the
    identifier with the suffix [.v2.pk] beside the source. *)
Definition destination_path (input_path : Path) (output_path : option Path)
  (uuid_hex : string) : Path :=
  match output_path with
  | None => path_join (path_parent input_path) (uuid_hex ++ ".v2.pk")
  | Some p => p
  end.

(** The call comes to its loop: the source exists, is named [*.plain.pk] and
    opens as the archive [zip_in], whose [uuid.bin] holds the sixteen bytes
    [uuid_bytes], and the destination [dst] opens for writing. *)
Definition enters_loop (w : World) (input_path : Path) (output_path : option Path)
  (zip_in : archive) (uuid_bytes : bytes) (dst : Path) : Prop :=
  path_exists w input_path = true
  /\ Py.endswith (path_name input_path) ".plain.pk" = true
  /\ open_read w input_path = Ok zip_in
  /\ zip_read zip_in "uuid.bin" = Ok uuid_bytes
  /\ List.length uuid_bytes = 16%nat
  /\ dst = destination_path input_path output_path (hex_upper uuid_bytes)
  /\ open_write w dst = Ok tt.

(** A buffer whose partial encryption gives a result: it is empty, or its
    head has a length that is a multiple of 4 and at least 8. *)
Definition encryptable (data : bytes) : Prop :=
  data = []
  \/ ((Nat.min 512 (List.length data) mod 4 = 0)%nat /\ (8 <= List.length data)%nat).


(** The default destination of a conversion of [story_path] with an
    identifier of zeros. *)
Definition zero_destination : Path :=
  {| anchor := "/"; parts := ["tmp"; (zero_hex ++ ".v2.pk")]%string |}.

(** The tests of the loop body for the image and the audio subtree, and the
    name with its separators normalized. *)
Definition in_image_subtree (file_name : string) : bool :=
  Py.startswith file_name "rf/" || Py.startswith file_name "rf\"
  || Py.contains "/rf/" file_name || Py.contains "\rf\" file_name.

Definition in_audio_subtree (file_name : string) : bool :=
  Py.startswith file_name "sf/" || Py.startswith file_name "sf\"
  || Py.contains "/sf/" file_name || Py.contains "\sf\" file_name.

Definition normalized (file_name : string) : string := Py.replace file_name "\" "/".

(** An archive with an audio file under a nested subtree, named with
    backslashes. *)
Definition audio_archive : archive :=
  [("uuid.bin", Ok (repeat x00 16)); ("pack\sf\000\b.mp3", Ok (repeat x03 12))]%string.

(** An archive whose last entry, a file of an unknown kind, cannot be read. *)
Definition unreadable_archive : archive :=
  [("uuid.bin", Ok (repeat x00 16)); ("ni", Ok [x01; x02]);
   ("notes.txt", Raise (OSError "Bad CRC-32 for file 'notes.txt'"))]%string.

(** * Properties *)

(** ** The cipher keeps the length of its input *)

Module XXTEAFacts.
Import XXTEA.

Lemma length_store p x v : List.length (store p x v) = List.length v.
Proof.
  revert p; induction v as [|h t IH]; intros [|p]; simpl; auto.
Qed.

Lemma length_mix_at k sum e st p :
  List.length (fst (mix_at k sum e st p)) = List.length (fst st).
Proof.
  destruct st as [v z]; simpl. apply length_store.
Qed.

Lemma length_mix_fold k sum e ps : forall st,
  List.length (fst (fold_left (mix_at k sum e) ps st)) = List.length (fst st).
Proof.
  induction ps as [|p ps IH]; intros st; simpl; [reflexivity|].
  rewrite IH. apply length_mix_at.
Qed.

Lemma length_mix_round k sum st :
  List.length (fst (mix_round k sum st)) = List.length (fst st).
Proof.
  unfold mix_round.
  pose proof (length_mix_fold k sum (Z.land (Z.shiftr sum 2) 3)
                (seq 0 (List.length (fst st) - 1)) st) as H.
  destruct (fold_left _ _ st) as [v z]; simpl in *.
  rewrite length_store. exact H.
Qed.

Lemma length_mix_rounds r k : forall sum st,
  List.length (mix_rounds r k sum st) = List.length (fst st).
Proof.
  induction r as [|r IH]; intros sum st; simpl; [reflexivity|].
  rewrite IH. apply length_mix_round.
Qed.

Lemma length_btea v k rounds : List.length (btea v k rounds) = List.length v.
Proof.
  unfold btea. apply length_mix_rounds.
Qed.

Lemma length_bytes2longs n : forall s,
  List.length s = (4 * n)%nat -> List.length (bytes2longs s) = n.
Proof.
  induction n as [|n IH]; intros s Hs.
  - destruct s; [reflexivity | discriminate].
  - destruct s as [|b0 [|b1 [|b2 [|b3 rest]]]]; simpl in Hs; try lia.
    simpl. f_equal. apply IH. lia.
Qed.

Lemma length_longs2bytes v : List.length (longs2bytes v) = (4 * List.length v)%nat.
Proof.
  induction v as [|w v IH]; simpl; [reflexivity|].
  rewrite IH. lia.
Qed.

Lemma encrypt_accepts data key rounds :
  accepts data key ->
  encrypt data key rounds
  = Ok (longs2bytes (btea (bytes2longs data) (bytes2longs key) rounds)).
Proof.
  intros (Hk & Hm & Hl). unfold encrypt.
  apply Nat.eqb_eq in Hk, Hm. rewrite Hk, Hm. cbn [negb orb].
  replace (List.length data <? 8)%nat with false; [reflexivity|].
  symmetry. apply Nat.ltb_ge. exact Hl.
Qed.

Lemma encrypt_rejects data key rounds :
  ~ accepts data key -> exists msg, encrypt data key rounds = Raise (ValueError msg).
Proof.
  intros Hn. unfold encrypt.
  destruct (List.length key =? 16)%nat eqn:Hk; cbn [negb orb]; [|eexists; reflexivity].
  destruct (List.length data mod 4 =? 0)%nat eqn:Hm; cbn [negb orb]; [|eexists; reflexivity].
  destruct (List.length data <? 8)%nat eqn:Hl; [eexists; reflexivity|].
  exfalso. apply Hn. unfold accepts.
  apply Nat.eqb_eq in Hk, Hm. apply Nat.ltb_ge in Hl. auto.
Qed.

Lemma encrypt_Ok_accepts data key rounds out :
  encrypt data key rounds = Ok out -> accepts data key.
Proof.
  intros H. unfold encrypt in H.
  destruct (List.length key =? 16)%nat eqn:Hk; cbn [negb orb] in H; [|discriminate].
  destruct (List.length data mod 4 =? 0)%nat eqn:Hm; cbn [negb orb] in H; [|discriminate].
  destruct (List.length data <? 8)%nat eqn:Hl; [discriminate|].
  apply Nat.eqb_eq in Hk, Hm. apply Nat.ltb_ge in Hl. unfold accepts. auto.
Qed.

Lemma encrypt_length data key rounds out :
  encrypt data key rounds = Ok out -> List.length out = List.length data.
Proof.
  intros H. pose proof (encrypt_Ok_accepts _ _ _ _ H) as Hacc.
  rewrite (encrypt_accepts _ _ rounds Hacc) in H. injection H as <-.
  destruct Hacc as (_ & Hm & _).
  pose proof (Nat.div_mod_eq (List.length data) 4) as Hd.
  rewrite length_longs2bytes, length_btea.
  rewrite (length_bytes2longs (List.length data / 4)); lia.
Qed.

(** The known answer for an all-zero key and block, with the default round
    count: ab043705 808c5d57. *)
Example encrypt_zero_vector :
  encrypt (repeat x00 8) (repeat x00 16) 0
  = Ok [xab; x04; x37; x05; x80; x8c; x5d; x57].
Proof. vm_compute. reflexivity. Qed.

End XXTEAFacts.

(** ** The round count *)

Lemma lunii_tea_rounds_length buffer :
  lunii_tea_rounds buffer = rounds_of_length (Py.len buffer).
Proof. reflexivity. Qed.

Lemma rounds_checked_upto_512 : forallb rounds_checked (seq 1 512) = true.
Proof. vm_compute. reflexivity. Qed.

Lemma lunii_tea_rounds_upto_512 buffer :
  (1 <= List.length buffer <= 512)%nat ->
  lunii_tea_rounds buffer = Ok (1 + 208 / Py.len buffer)%Z.
Proof.
  intros Hlen. rewrite lunii_tea_rounds_length. unfold Py.len.
  pose proof rounds_checked_upto_512 as Hall.
  rewrite forallb_forall in Hall.
  specialize (Hall (List.length buffer)).
  assert (Hin : In (List.length buffer) (seq 1 512)) by (apply in_seq; lia).
  apply Hall in Hin. unfold rounds_checked in Hin.
  destruct (rounds_of_length (Z.of_nat (List.length buffer))) as [r|e];
    [|discriminate].
  apply Z.eqb_eq in Hin. now subst r.
Qed.

Lemma length_head_of B : List.length (head_of B) = Nat.min 512 (List.length B).
Proof.
  unfold head_of. rewrite length_firstn. lia.
Qed.

Lemma head_tail_of B : head_of B ++ tail_of B = B.
Proof. apply firstn_skipn. Qed.

Lemma lunii_tea_rounds_head B :
  B <> [] ->
  lunii_tea_rounds (head_of B) = Ok (1 + 208 / Py.len (head_of B))%Z.
Proof.
  intros Hne. apply lunii_tea_rounds_upto_512.
  rewrite length_head_of. destruct B; [congruence | simpl List.length; lia].
Qed.

(** The transform on a non-empty buffer: one call of the cipher, on the head,
    with the round count of the head. *)
Lemma encrypt_first_512_bytes_nonempty B key :
  B <> [] ->
  encrypt_first_512_bytes B key
  = (encrypted <- XXTEA.encrypt (head_of B) key (1 + 208 / Py.len (head_of B)) ;;
     Ok (encrypted ++ tail_of B)).
Proof.
  intros Hne. unfold encrypt_first_512_bytes.
  destruct (List.length B =? 0)%nat eqn:H0.
  - apply Nat.eqb_eq in H0. destruct B; [congruence | discriminate].
  - fold (head_of B). fold (tail_of B).
    rewrite (lunii_tea_rounds_head B Hne). reflexivity.
Qed.

Lemma encrypt_first_512_bytes_empty key : encrypt_first_512_bytes [] key = Ok [].
Proof. reflexivity. Qed.

(** C4. In the partial encryption transform of a non-empty buffer whose head,
    the first [min(512, len(B))] bytes, has a length that is a multiple of 4,
    the round count computed for the cipher is [1 + floor(52 / (n / 4))] in
    integer arithmetic, [n] being the length of the head and not of the
    buffer, and the cipher is called on the head with that round count. *)
Theorem rounds_from_head_length (B key : bytes) :
  B <> [] ->
  (Py.len (head_of B) mod 4 = 0)%Z ->
  Py.len (head_of B) = Z.min 512 (Py.len B)
  /\ lunii_tea_rounds (head_of B) = Ok (1 + 52 / (Py.len (head_of B) / 4))%Z
  /\ encrypt_first_512_bytes B key
     = (encrypted <-
          XXTEA.encrypt (head_of B) key (1 + 52 / (Z.min 512 (Py.len B) / 4)) ;;
        Ok (encrypted ++ tail_of B)).
Proof.
  intros Hne Hmod.
  assert (Hlen : Py.len (head_of B) = Z.min 512 (Py.len B)).
  { unfold Py.len. rewrite length_head_of. lia. }
  assert (Hpos : (0 < Py.len (head_of B))%Z).
  { rewrite Hlen. unfold Py.len. destruct B; [congruence | simpl List.length; lia]. }
  assert (Hq : (208 / Py.len (head_of B) = 52 / (Py.len (head_of B) / 4))%Z).
  { set (n := Py.len (head_of B)) in *.
    assert (Hn : (n = 4 * (n / 4))%Z).
    { pose proof (Z.div_mod n 4) as Hd. lia. }
    rewrite Hn at 1.
    replace 208%Z with (4 * 52)%Z by reflexivity.
    rewrite Z.div_mul_cancel_l; lia. }
  split; [exact Hlen|]. split.
  - rewrite (lunii_tea_rounds_head B Hne), Hq. reflexivity.
  - rewrite (encrypt_first_512_bytes_nonempty B key Hne), Hq, Hlen. reflexivity.
Qed.

Lemma rounds_from_head_length_witness :
  lunii_tea_rounds (head_of (repeat x2a 600)) = Ok 1%Z
  /\ lunii_tea_rounds (head_of (repeat x2a 8)) = Ok 27%Z.
Proof.
  split.
  - apply (rounds_from_head_length (repeat x2a 600) lunii_generic_key);
      [discriminate | vm_compute; reflexivity].
  - apply (rounds_from_head_length (repeat x2a 8) lunii_generic_key);
      [discriminate | vm_compute; reflexivity].
Defined.

(** ** The partial encryption transform *)

Lemma encrypt_first_512_bytes_Ok B key out :
  B <> [] ->
  encrypt_first_512_bytes B key = Ok out ->
  exists encrypted,
    XXTEA.encrypt (head_of B) key (1 + 208 / Py.len (head_of B)) = Ok encrypted
    /\ out = encrypted ++ tail_of B.
Proof.
  intros Hne H. rewrite (encrypt_first_512_bytes_nonempty B key Hne) in H.
  destruct (XXTEA.encrypt _ _ _) as [encrypted|e]; simpl in H; [|discriminate].
  exists encrypted. split; [reflexivity | congruence].
Qed.

Lemma encrypt_first_512_bytes_Ok_length B key out :
  encrypt_first_512_bytes B key = Ok out -> List.length out = List.length B.
Proof.
  intros H. destruct B as [|b B'].
  - simpl in H. injection H as <-. reflexivity.
  - apply encrypt_first_512_bytes_Ok in H; [|discriminate].
    destruct H as (encrypted & Henc & ->).
    apply XXTEAFacts.encrypt_length in Henc.
    rewrite length_app, Henc, <- length_app, head_tail_of. reflexivity.
Qed.

Lemma encrypt_first_512_bytes_Ok_iff B key :
  (exists out, encrypt_first_512_bytes B key = Ok out)
  <-> B = [] \/ XXTEA.accepts (head_of B) key.
Proof.
  split.
  - intros [out H]. destruct B as [|b B']; [now left | right].
    apply encrypt_first_512_bytes_Ok in H; [|discriminate].
    destruct H as (encrypted & Henc & _).
    exact (XXTEAFacts.encrypt_Ok_accepts _ _ _ _ Henc).
  - intros [-> | Hacc]; [exists []; reflexivity|].
    destruct B as [|b B']; [exists []; reflexivity|].
    rewrite encrypt_first_512_bytes_nonempty by discriminate.
    rewrite (XXTEAFacts.encrypt_accepts _ _ _ Hacc). simpl. eauto.
Qed.

(** C2. Whatever the buffer and the key, a result of the partial encryption
    transform has the length of the buffer; and the transform gives a result
    exactly when the buffer is empty or the cipher accepts its head and the
    key (otherwise it raises). *)
Theorem encrypt_first_512_bytes_length (B key : bytes) :
  (forall out, encrypt_first_512_bytes B key = Ok out ->
               List.length out = List.length B)
  /\ ((exists out, encrypt_first_512_bytes B key = Ok out)
      <-> B = [] \/ XXTEA.accepts (head_of B) key).
Proof.
  split.
  - intros out. apply encrypt_first_512_bytes_Ok_length.
  - apply encrypt_first_512_bytes_Ok_iff.
Qed.

Lemma encrypt_first_512_bytes_length_witness :
  exists out,
    encrypt_first_512_bytes (repeat x2a 600) lunii_generic_key = Ok out
    /\ List.length out = 600%nat.
Proof.
  destruct (encrypt_first_512_bytes_length (repeat x2a 600) lunii_generic_key)
    as [Hlen [_ Hok]].
  destruct Hok as [out Hout].
  - right. unfold XXTEA.accepts. repeat split; vm_compute; lia.
  - exists out. split; [exact Hout|]. rewrite (Hlen out Hout). apply repeat_length.
Defined.

(** C3. For a buffer of more than 512 bytes, every byte of a result of the
    partial encryption transform at an offset of 512 or more is the byte of
    the buffer at that offset; and with a key of 16 bytes there is a
    result. *)
Theorem encrypt_first_512_bytes_tail (B key : bytes) :
  (512 < List.length B)%nat ->
  (forall out, encrypt_first_512_bytes B key = Ok out ->
     skipn 512 out = skipn 512 B
     /\ forall i, (512 <= i)%nat -> nth_error out i = nth_error B i)
  /\ (List.length key = 16%nat -> exists out, encrypt_first_512_bytes B key = Ok out).
Proof.
  intros Hlen.
  assert (Hne : B <> []) by (destruct B; [simpl in Hlen; lia | discriminate]).
  assert (Hmin : Nat.min 512 (List.length B) = 512%nat) by lia.
  assert (Hhead : List.length (head_of B) = 512%nat)
    by (rewrite length_head_of; exact Hmin).
  split.
  - intros out H.
    apply encrypt_first_512_bytes_Ok in H; [|exact Hne].
    destruct H as (encrypted & Henc & ->).
    apply XXTEAFacts.encrypt_length in Henc. rewrite Hhead in Henc.
    assert (Htail : skipn 512 (encrypted ++ tail_of B) = skipn 512 B).
    { rewrite skipn_app, Henc, Nat.sub_diag.
      rewrite skipn_all2 by lia. simpl.
      unfold tail_of. rewrite Hmin. reflexivity. }
    split; [exact Htail|].
    intros i Hi.
    replace i with (512 + (i - 512))%nat by lia.
    rewrite <- !nth_error_skipn, Htail. reflexivity.
  - intros Hkey.
    apply encrypt_first_512_bytes_Ok_iff. right.
    unfold XXTEA.accepts. rewrite Hhead. repeat split; [exact Hkey | lia].
Qed.

Lemma encrypt_first_512_bytes_tail_witness :
  exists out,
    encrypt_first_512_bytes (repeat x2a 600) lunii_generic_key = Ok out
    /\ nth_error out 599 = Some x2a.
Proof.
  assert (Hlen : (512 < List.length (repeat x2a 600))%nat)
    by (rewrite repeat_length; lia).
  destruct (encrypt_first_512_bytes_tail (repeat x2a 600) lunii_generic_key Hlen)
    as [Htail Hok].
  destruct (Hok eq_refl) as [out Hout].
  exists out. split; [exact Hout|].
  destruct (Htail out Hout) as [_ Hnth].
  rewrite (Hnth 599%nat) by lia. vm_compute. reflexivity.
Defined.

(** C6. On a non-empty buffer whose head length [min(512, len(B))] is not a
    multiple of 4, the partial encryption transform raises [ValueError]: it
    gives no result, of this or any other length. *)
Theorem encrypt_first_512_bytes_unaligned (B key : bytes) :
  B <> [] ->
  (Nat.min 512 (List.length B) mod 4 <> 0)%nat ->
  exists msg, encrypt_first_512_bytes B key = Raise (ValueError msg).
Proof.
  intros Hne Hmod.
  rewrite (encrypt_first_512_bytes_nonempty B key Hne).
  destruct (XXTEAFacts.encrypt_rejects (head_of B) key
              (1 + 208 / Py.len (head_of B))) as [msg Hmsg].
  - intros (_ & Hm & _). rewrite length_head_of in Hm. contradiction.
  - rewrite Hmsg. exists msg. reflexivity.
Qed.

Lemma encrypt_first_512_bytes_unaligned_witness :
  exists msg,
    encrypt_first_512_bytes [x01; x02; x03; x04; x05; x06; x07; x08; x09]
      lunii_generic_key = Raise (ValueError msg).
Proof.
  apply encrypt_first_512_bytes_unaligned; [discriminate|].
  vm_compute. discriminate.
Defined.

(** ** Strings *)

Lemma append_assoc (a b c : string) : ((a ++ b) ++ c = a ++ (b ++ c))%string.
Proof.
  induction a as [|x a IH]; simpl; [reflexivity | now rewrite IH].
Qed.

Lemma length_append (a b : string) :
  String.length (a ++ b) = (String.length a + String.length b)%nat.
Proof.
  induction a as [|x a IH]; simpl; [reflexivity | now rewrite IH].
Qed.

Lemma prefix_append (a b : string) : String.prefix a (a ++ b) = true.
Proof.
  induction a as [|x a IH]; simpl.
  - destruct b; reflexivity.
  - destruct (ascii_dec x x) as [_|Hx]; [exact IH | congruence].
Qed.

Lemma upper_append (a b : string) :
  Py.upper (a ++ b) = (Py.upper a ++ Py.upper b)%string.
Proof.
  induction a as [|x a IH]; simpl; [reflexivity | now rewrite IH].
Qed.

(** ** The hexadecimal form of the identifier *)

Lemma zeros_snoc k acc :
  (Py.zeros k ++ String "0" acc = String "0" (Py.zeros k ++ acc))%string.
Proof.
  induction k as [|k IH]; simpl; [reflexivity | now rewrite IH].
Qed.

Lemma fixed_digits_zero k : forall acc,
  fixed_digits Py.hex_digit k 0 acc = (Py.zeros k ++ acc)%string.
Proof.
  induction k as [|k IH]; intros acc; simpl; [reflexivity|].
  change (0 / 16)%Z with 0%Z. change (Py.hex_digit (0 mod 16)) with "0"%char.
  rewrite IH. apply zeros_snoc.
Qed.

Lemma hex_digits_from_fixed fuel : forall n acc k,
  (0 <= n < 16 ^ Z.of_nat fuel)%Z -> (n < 16 ^ Z.of_nat k)%Z ->
  (1 <= k)%nat -> (1 <= fuel)%nat ->
  exists d, (d <= k)%nat
    /\ String.length (Py.hex_digits_from fuel n acc) = (d + String.length acc)%nat
    /\ fixed_digits Py.hex_digit k n acc
       = (Py.zeros (k - d) ++ Py.hex_digits_from fuel n acc)%string.
Proof.
  induction fuel as [|f IH]; intros n acc k Hn Hk Hk1 Hf1; [lia|].
  destruct k as [|k']; [lia|].
  rewrite !Nat2Z.inj_succ, !Z.pow_succ_r in * by lia.
  cbn [Py.hex_digits_from fixed_digits].
  destruct (n / 16 =? 0)%Z eqn:Hq.
  - apply Z.eqb_eq in Hq. rewrite Hq. exists 1%nat.
    split; [lia|]. split; [reflexivity|].
    rewrite fixed_digits_zero. simpl. now rewrite Nat.sub_0_r.
  - apply Z.eqb_neq in Hq.
    assert (Hge : (16 <= n)%Z).
    { destruct (Z_lt_ge_dec n 16) as [Hlt|Hge]; [|lia].
      exfalso. apply Hq. apply Z.div_small. lia. }
    assert (Hf : (1 <= f)%nat).
    { destruct f; [simpl in Hn; lia | lia]. }
    assert (Hk' : (1 <= k')%nat).
    { destruct k'; [simpl in Hk; lia | lia]. }
    destruct (IH (n / 16)%Z (String (Py.hex_digit (n mod 16)) acc) k')
      as (d & Hd & Hlen & Hfix); try assumption.
    + split; [apply Z.div_pos; lia|].
      apply Z.div_lt_upper_bound; lia.
    + apply Z.div_lt_upper_bound; lia.
    + exists (S d). split; [lia|]. split.
      * rewrite Hlen. simpl. lia.
      * rewrite Hfix. reflexivity.
Qed.

Lemma format_032x_fixed n :
  (0 <= n < 16 ^ 32)%Z ->
  Py.format_032x n = fixed_digits Py.hex_digit 32 n EmptyString.
Proof.
  intros Hn. unfold Py.format_032x, Py.format_x.
  set (fuel := S (Z.to_nat (Z.log2 n))).
  destruct (hex_digits_from_fixed fuel n EmptyString 32) as (d & Hd & Hlen & Hfix).
  - split; [lia|]. unfold fuel. rewrite Nat2Z.inj_succ, Z2Nat.id by apply Z.log2_nonneg.
    destruct (Z.eq_dec n 0) as [->|Hnz]; [reflexivity|].
    apply Z.lt_le_trans with (2 ^ Z.succ (Z.log2 n))%Z.
    + apply Z.log2_spec. lia.
    + apply Z.pow_le_mono_l. pose proof (Z.log2_nonneg n). lia.
  - exact (proj2 Hn).
  - lia.
  - unfold fuel. lia.
  - rewrite Hfix, Hlen. simpl String.length. now rewrite Nat.add_0_r.
Qed.

Lemma upper_hex_digit d :
  (0 <= d < 16)%Z -> Py.upper_ascii (Py.hex_digit d) = HEX_digit d.
Proof.
  intros Hd.
  assert (Hcases : In d [0; 1; 2; 3; 4; 5; 6; 7; 8; 9; 10; 11; 12; 13; 14; 15]%Z).
  { simpl. lia. }
  simpl in Hcases.
  repeat (destruct Hcases as [<-|Hcases]; [reflexivity|]). contradiction.
Qed.

Lemma upper_fixed_digits k : forall n acc,
  Py.upper (fixed_digits Py.hex_digit k n acc)
  = fixed_digits HEX_digit k n (Py.upper acc).
Proof.
  induction k as [|k IH]; intros n acc; simpl; [reflexivity|].
  rewrite IH. simpl. rewrite upper_hex_digit; [reflexivity|].
  apply Z.mod_pos_bound. lia.
Qed.

Lemma Z_of_byte_range (x : byte) : (0 <= Z.of_N (Byte.to_N x) < 256)%Z.
Proof.
  pose proof (Byte.to_N_bounded x). lia.
Qed.

Lemma int_from_bytes_big_snoc b x :
  Py.int_from_bytes_big (b ++ [x])
  = (Py.int_from_bytes_big b * 256 + Z.of_N (Byte.to_N x))%Z.
Proof.
  unfold Py.int_from_bytes_big. rewrite fold_left_app. reflexivity.
Qed.

Lemma int_from_bytes_big_range b :
  (0 <= Py.int_from_bytes_big b < 256 ^ Z.of_nat (List.length b))%Z.
Proof.
  induction b as [|x b IH] using rev_ind; [unfold Py.int_from_bytes_big; simpl; lia|].
  rewrite int_from_bytes_big_snoc, length_app. simpl List.length.
  replace (Z.of_nat (List.length b + 1)) with (Z.succ (Z.of_nat (List.length b))) by lia.
  rewrite Z.pow_succ_r by lia.
  pose proof (Z_of_byte_range x). nia.
Qed.

Lemma hex_upper_snoc b x : hex_upper (b ++ [x]) = (hex_upper b ++ byte_HEX x)%string.
Proof.
  induction b as [|y b IH].
  - unfold hex_upper, byte_HEX. reflexivity.
  - change (hex_upper ((y :: b) ++ [x])%list)
      with (byte_HEX y ++ hex_upper (b ++ [x])%list)%string.
    change (hex_upper (y :: b)) with (byte_HEX y ++ hex_upper b)%string.
    now rewrite IH, append_assoc.
Qed.

Lemma fixed_digits_bytes b : forall acc,
  fixed_digits HEX_digit (2 * List.length b) (Py.int_from_bytes_big b) acc
  = (hex_upper b ++ acc)%string.
Proof.
  induction b as [|x b IH] using rev_ind; intros acc; [reflexivity|].
  rewrite int_from_bytes_big_snoc, length_app, hex_upper_snoc, append_assoc.
  simpl List.length.
  replace (2 * (List.length b + 1))%nat with (S (S (2 * List.length b))) by lia.
  cbn [fixed_digits].
  pose proof (Z_of_byte_range x) as Hx.
  set (v := Z.of_N (Byte.to_N x)) in *.
  set (N := Py.int_from_bytes_big b).
  assert (H1 : ((N * 256 + v) mod 16 = v mod 16)%Z).
  { replace (N * 256 + v)%Z with (v + (N * 16) * 16)%Z by lia.
    apply Z.mod_add. lia. }
  assert (H2 : ((N * 256 + v) / 16 = N * 16 + v / 16)%Z).
  { replace (N * 256 + v)%Z with (v + (N * 16) * 16)%Z by lia.
    rewrite Z.div_add by lia. lia. }
  assert (Hv : (0 <= v / 16 < 16)%Z).
  { split; [apply Z.div_pos; lia | apply Z.div_lt_upper_bound; lia]. }
  assert (H3 : ((N * 16 + v / 16) mod 16 = v / 16)%Z).
  { rewrite Z.add_comm, Z.mod_add by lia. apply Z.mod_small. exact Hv. }
  assert (H4 : ((N * 16 + v / 16) / 16 = N)%Z).
  { rewrite Z.add_comm, Z.div_add by lia. rewrite Z.div_small by exact Hv. lia. }
  rewrite H1, H2, H3, H4, IH. unfold byte_HEX. fold v. reflexivity.
Qed.

Lemma length_hex_upper b : String.length (hex_upper b) = (2 * List.length b)%nat.
Proof.
  induction b as [|x b IH]; [reflexivity|].
  change (hex_upper (x :: b)) with (byte_HEX x ++ hex_upper b)%string.
  rewrite length_append, IH. unfold byte_HEX. simpl. lia.
Qed.

(** The string that the converter computes from the sixteen bytes of the
    identifier (the integer of the bytes, formatted with ['%032x'], in upper
    case) is the rendering of the bytes, two uppercase digits each. *)
Lemma uuid_hex_upper b :
  List.length b = 16%nat ->
  Py.upper (Py.format_032x (Py.int_from_bytes_big b)) = hex_upper b.
Proof.
  intros Hb.
  rewrite format_032x_fixed.
  - rewrite upper_fixed_digits. simpl Py.upper.
    change 32%nat with (2 * 16)%nat. rewrite <- Hb.
    rewrite fixed_digits_bytes.
    generalize (hex_upper b). intros t.
    induction t as [|c t IH]; simpl; [reflexivity | now rewrite IH].
  - pose proof (int_from_bytes_big_range b) as Hr. rewrite Hb in Hr.
    change (256 ^ Z.of_nat 16)%Z with (16 ^ 32)%Z in Hr. exact Hr.
Qed.

(** ** The loop over the entries *)

Ltac split_ifs H :=
  repeat match type of H with
         | context [if ?c then _ else _] => destruct c eqn:?
         end.

Lemma convert_entry_name uuid_hex zip_in file_name new_name output_data :
  convert_entry uuid_hex zip_in file_name = Ok (Some (new_name, output_data)) ->
  exists base_name, new_name = (uuid_hex ++ "/" ++ base_name)%string.
Proof.
  intros H. unfold convert_entry in H.
  destruct (existsb _ _); [discriminate|].
  destruct (zip_read zip_in file_name) as [data|e]; [|discriminate].
  cbn [bind] in H.
  destruct (encrypt_first_512_bytes data lunii_generic_key) as [enc|e];
    cbn [bind] in H; split_ifs H;
    try discriminate; injection H as <- _; eexists; reflexivity.
Qed.

(** The entries the loop adds to the writer, whether it ends or is cut short
    by an exception. *)
Lemma convert_entries_entries uuid_hex zip_in file_list : forall out,
  exists added,
    entries (fst (convert_entries uuid_hex zip_in file_list out))
    = (entries out ++ added)%list
    /\ Forall (fun e => exists file_name,
                 In file_name file_list
                 /\ convert_entry uuid_hex zip_in file_name = Ok (Some e)) added.
Proof.
  induction file_list as [|n rest IH]; intros out; simpl.
  - exists []. split; [now rewrite app_nil_r | constructor].
  - destruct (convert_entry uuid_hex zip_in n) as [[e|]|err] eqn:Hn.
    + destruct (IH (writestr out e)) as (added & Heq & Hall).
      exists (e :: added). split.
      * rewrite Heq. simpl. now rewrite <- app_assoc.
      * constructor; [exists n; auto|].
        eapply Forall_impl; [|exact Hall].
        intros a (m & Hm & Ha). exists m. auto.
    + destruct (IH out) as (added & Heq & Hall).
      exists added. split; [exact Heq|].
      eapply Forall_impl; [|exact Hall].
      intros a (m & Hm & Ha). exists m. auto.
    + exists []. split; [now rewrite app_nil_r | constructor].
Qed.

(** When no exception cuts the loop short, every entry name has been through
    the body, in order. *)
Lemma convert_entries_complete uuid_hex zip_in file_list : forall out out',
  convert_entries uuid_hex zip_in file_list out = (out', None) ->
  entries out' = (entries out ++ flat_map (written_for uuid_hex zip_in) file_list)%list
  /\ files_processed out'
     = (files_processed out
        + Z.of_nat (List.length (flat_map (written_for uuid_hex zip_in) file_list)))%Z.
Proof.
  induction file_list as [|n rest IH]; intros out out' H; simpl in H.
  - injection H as <-. simpl. rewrite app_nil_r. split; [reflexivity | lia].
  - cbn [flat_map]. unfold written_for at 1 3.
    destruct (convert_entry uuid_hex zip_in n) as [[e|]|err]; [| |discriminate].
    + apply IH in H. destruct H as [He Hc]. rewrite He, Hc. simpl.
      rewrite <- app_assoc. split; [reflexivity | lia].
    + apply IH in H. exact H.
Qed.

(** ** The conversion, case by case *)

Lemma existsb_eqb_In (x : string) (l : list string) :
  existsb (String.eqb x) l = true <-> In x l.
Proof.
  rewrite existsb_exists. split.
  - intros (y & Hy & Heq). apply String.eqb_eq in Heq. now subst.
  - intros Hx. exists x. split; [exact Hx | apply String.eqb_refl].
Qed.

Lemma UUID_from_bytes_Ok b u :
  UUID_from_bytes b = Ok u ->
  List.length b = 16%nat /\ Py.upper (UUID_hex u) = hex_upper b.
Proof.
  unfold UUID_from_bytes. intros H.
  destruct (List.length b =? 16)%nat eqn:Hb; cbn [negb] in H; [|discriminate].
  apply Nat.eqb_eq in Hb. injection H as <-.
  split; [exact Hb | apply uuid_hex_upper; exact Hb].
Qed.

(** A call either ends with an exception before it writes anything, or runs
    the loop over all the names of the source with the hexadecimal form of
    the sixteen bytes read from [uuid.bin]. *)
Lemma convert_plain_to_v2_cases w input_path output_path :
  (written (convert_plain_to_v2 w input_path output_path) = []
   /\ exists e, outcome (convert_plain_to_v2 w input_path output_path) = Raise e)
  \/ (exists zip_in uuid_bytes dst,
        open_read w input_path = Ok zip_in
        /\ zip_read zip_in "uuid.bin" = Ok uuid_bytes
        /\ List.length uuid_bytes = 16%nat
        /\ open_write w dst = Ok tt
        /\ convert_plain_to_v2 w input_path output_path
           = let '(zip_out, failure) :=
               convert_entries (hex_upper uuid_bytes) zip_in (namelist zip_in)
                 new_writer in
             {| outcome := match failure with
                           | Some e => Raise e
                           | None => Ok dst
                           end;
                opened := Some dst;
                written := entries zip_out |}).
Proof.
  unfold convert_plain_to_v2.
  destruct (path_exists w input_path); cbn [negb]; [|left; split; [reflexivity | eexists; reflexivity]].
  destruct (Py.endswith (path_name input_path) ".plain.pk"); cbn [negb];
    [|left; split; [reflexivity | eexists; reflexivity]].
  destruct (open_read w input_path) as [zip_in|e] eqn:Hz; [|left; split; [reflexivity | eexists; reflexivity]].
  destruct (existsb (String.eqb "uuid.bin") (namelist zip_in)); cbn [negb];
    [|left; split; [reflexivity | eexists; reflexivity]].
  destruct (zip_read zip_in "uuid.bin") as [uuid_bytes|e] eqn:Hr; [|left; split; [reflexivity | eexists; reflexivity]].
  destruct (UUID_from_bytes uuid_bytes) as [story_uuid|e] eqn:Hu; [|left; split; [reflexivity | eexists; reflexivity]].
  apply UUID_from_bytes_Ok in Hu. destruct Hu as [Hlen Hhex]. rewrite Hhex.
  match goal with
  | |- context [open_write w ?p] => set (dst := p)
  end.
  destruct (open_write w dst) as [[]|e] eqn:Hw; [|left; split; [reflexivity | eexists; reflexivity]].
  right. exists zip_in, uuid_bytes, dst. repeat split; auto.
Qed.

Lemma zip_read_In zip_in name data :
  zip_read zip_in name = Ok data -> In name (namelist zip_in).
Proof.
  unfold zip_read. intros H.
  destruct (find _ (rev zip_in)) as [e|] eqn:Hf; [|discriminate].
  apply find_some in Hf. destruct Hf as [Hin Heq].
  apply String.eqb_eq in Heq. subst name.
  apply in_rev in Hin. unfold namelist. now apply in_map.
Qed.

Lemma convert_entries_all_Ok uuid_hex zip_in file_list : forall out,
  (forall n, In n file_list -> exists r, convert_entry uuid_hex zip_in n = Ok r) ->
  snd (convert_entries uuid_hex zip_in file_list out) = None.
Proof.
  induction file_list as [|n rest IH]; intros out Hok; [reflexivity|].
  destruct (Hok n (or_introl eq_refl)) as [r Hr].
  simpl. rewrite Hr.
  destruct r; apply IH; intros m Hm; apply Hok; now right.
Qed.

(** The run of a call that comes to its loop. *)
Lemma convert_plain_to_v2_loop w input_path output_path zip_in uuid_bytes dst :
  enters_loop w input_path output_path zip_in uuid_bytes dst ->
  convert_plain_to_v2 w input_path output_path
  = let '(zip_out, failure) :=
      convert_entries (hex_upper uuid_bytes) zip_in (namelist zip_in) new_writer in
    {| outcome := match failure with
                  | Some e => Raise e
                  | None => Ok dst
                  end;
       opened := Some dst;
       written := entries zip_out |}.
Proof.
  intros (Hex & Hsuf & Hz & Hr & Hlen & Hdst & Hw).
  unfold convert_plain_to_v2. rewrite Hex, Hsuf, Hz. cbn [negb].
  pose proof (zip_read_In _ _ _ Hr) as Hin.
  apply existsb_eqb_In in Hin. rewrite Hin, Hr. cbn [negb].
  unfold UUID_from_bytes. apply Nat.eqb_eq in Hlen. rewrite Hlen. cbn [negb].
  apply Nat.eqb_eq in Hlen.
  unfold UUID_hex. cbn [uuid_int]. rewrite (uuid_hex_upper _ Hlen).
  fold (destination_path input_path output_path (hex_upper uuid_bytes)).
  rewrite <- Hdst, Hw. reflexivity.
Qed.

(** ** The destination paths *)

(** C1. When the entry [uuid.bin] of the source archive holds 16 bytes, the
    path of every entry written to the destination begins with the 32
    uppercase hexadecimal digits of those bytes followed by a slash. *)
Theorem destination_paths_prefixed w input_path output_path zip_in uuid_bytes :
  open_read w input_path = Ok zip_in ->
  zip_read zip_in "uuid.bin" = Ok uuid_bytes ->
  List.length uuid_bytes = 16%nat ->
  String.length (hex_upper uuid_bytes) = 32%nat
  /\ Forall (fun e => Py.startswith (fst e) (hex_upper uuid_bytes ++ "/") = true)
       (written (convert_plain_to_v2 w input_path output_path)).
Proof.
  intros Hz Hr Hlen. split.
  - rewrite length_hex_upper, Hlen. reflexivity.
  - destruct (convert_plain_to_v2_cases w input_path output_path)
      as [[-> _] | (z & b & dst & Hz' & Hr' & _ & _ & ->)].
    + constructor.
    + rewrite Hz in Hz'. injection Hz' as <-.
      rewrite Hr in Hr'. injection Hr' as <-.
      destruct (convert_entries_entries (hex_upper uuid_bytes) zip_in
                  (namelist zip_in) new_writer) as (added & Heq & Hall).
      destruct (convert_entries _ _ _ _) as [zip_out failure].
      cbn [written fst] in *. rewrite Heq. simpl.
      eapply Forall_impl; [|exact Hall].
      intros [new_name output_data] (file_name & _ & Hconv).
      apply convert_entry_name in Hconv. destruct Hconv as [base_name ->].
      unfold Py.startswith. cbn [fst].
      rewrite <- append_assoc. apply prefix_append.
Qed.

Lemma destination_paths_prefixed_witness :
  Forall (fun e => Py.startswith (fst e) "00000000000000000000000000000000/" = true)
    (written (convert_plain_to_v2 (world_of small_archive) story_path None))
  /\ List.length (written (convert_plain_to_v2 (world_of small_archive) story_path None))
     = 2%nat.
Proof.
  split; [|vm_compute; reflexivity].
  exact (proj2 (destination_paths_prefixed (world_of small_archive) story_path None
                  small_archive (repeat x00 16) eq_refl eq_refl eq_refl)).
Defined.

(** ** Entries with the suffix [.plain] *)

Lemma substring_all s : substring 0 (String.length s) s = s.
Proof.
  induction s as [|c s IH]; simpl; [reflexivity | now rewrite IH].
Qed.

Lemma substring_append_r a b :
  substring (String.length a) (String.length b) (a ++ b) = b.
Proof.
  induction a as [|c a IH]; simpl; [apply substring_all | exact IH].
Qed.

Lemma endswith_append a b : Py.endswith (a ++ b) b = true.
Proof.
  unfold Py.endswith. rewrite length_append.
  replace (String.length a + String.length b - String.length b)%nat
    with (String.length a) by lia.
  rewrite substring_append_r, String.eqb_refl, andb_true_r.
  apply Nat.leb_le. lia.
Qed.

(** An occurrence of [.plain] that begins in [b] lies within [b]: none runs
    over into a [.plain] that follows. *)
Lemma prefix_plain_within b :
  b <> EmptyString ->
  String.prefix ".plain" (b ++ ".plain") = true ->
  String.prefix ".plain" b = true.
Proof.
  intros Hne H. apply prefix_correct in H. apply prefix_correct.
  destruct b as [|c1 [|c2 [|c3 [|c4 [|c5 [|c6 b]]]]]];
    [congruence| | | | | |]; simpl in H; try discriminate H.
  destruct b; simpl in *; exact H.
Qed.

Lemma replace_plain_suffix base :
  Py.contains ".plain" base = false ->
  Py.replace (base ++ ".plain") ".plain" "" = base.
Proof.
  unfold Py.replace. induction base as [|c base IH]; intros Hno.
  - reflexivity.
  - cbn [Py.contains] in Hno. apply orb_false_iff in Hno. destruct Hno as [Hp Hrest].
    change ((String c base ++ ".plain")%string)
      with (String c (base ++ ".plain")%string).
    cbn [Py.replace_from].
    destruct (String.prefix ".plain" (String c (base ++ ".plain"))) eqn:Hq.
    + change (String c (base ++ ".plain")%string)
        with ((String c base ++ ".plain")%string) in Hq.
      apply prefix_plain_within in Hq; [congruence | discriminate].
    + now rewrite IH.
Qed.

(** The branch of the loop body that an entry name ending with [.plain]
    takes. *)
Lemma convert_entry_plain uuid_hex zip_in file_name data :
  Py.endswith file_name ".plain" = true ->
  zip_read zip_in file_name = Ok data ->
  convert_entry uuid_hex zip_in file_name
  = (output_data <- encrypt_first_512_bytes data lunii_generic_key ;;
     Ok (Some ((uuid_hex ++ "/" ++ Py.replace file_name ".plain" "")%string,
               output_data))).
Proof.
  intros Hends Hread. unfold convert_entry.
  destruct (existsb _ _) eqn:Hmeta.
  - apply existsb_eqb_In in Hmeta. simpl in Hmeta.
    destruct Hmeta as [<-|[<-|[<-|[]]]]; vm_compute in Hends; discriminate.
  - rewrite Hread. cbn [bind].
    destruct (String.eqb file_name "ni" || String.eqb file_name "nm") eqn:Hidx.
    + apply orb_true_iff in Hidx.
      destruct Hidx as [Hn|Hn]; apply String.eqb_eq in Hn; subst file_name;
        vm_compute in Hends; discriminate.
    + rewrite Hends. reflexivity.
Qed.

(** X13. When [.plain] occurs in the name as its suffix only, the entry is
    written under the identifier by the name without the suffix, with the
    partial encryption transform of its bytes (and the body raises when the
    transform does). *)
Lemma convert_entry_plain_suffix_only uuid_hex zip_in base data :
  Py.contains ".plain" base = false ->
  zip_read zip_in (base ++ ".plain") = Ok data ->
  convert_entry uuid_hex zip_in (base ++ ".plain")
  = (output_data <- encrypt_first_512_bytes data lunii_generic_key ;;
     Ok (Some ((uuid_hex ++ "/" ++ base)%string, output_data))).
Proof.
  intros Hno Hread.
  rewrite (convert_entry_plain uuid_hex zip_in (base ++ ".plain") data
             (endswith_append base ".plain") Hread).
  now rewrite (replace_plain_suffix base Hno).
Qed.

(** C5. The entry named [li.plain.plain] ends with [.plain]; the converter
    writes it under the identifier as [li], every [.plain] of the name
    removed, where the name with its suffix removed is [li.plain]. *)
Theorem plain_removed_everywhere :
  convert_entry zero_hex [("li.plain.plain", Ok [])]%string "li.plain.plain"
  = Ok (Some ((zero_hex ++ "/li")%string, []))
  /\ without_plain_suffix "li.plain.plain" = "li.plain"%string.
Proof. split; vm_compute; reflexivity. Qed.

(** ** Collisions of destination paths *)

Lemma written_for_Some uuid_hex zip_in file_name e :
  convert_entry uuid_hex zip_in file_name = Ok (Some e) ->
  written_for uuid_hex zip_in file_name = [e].
Proof.
  intros H. unfold written_for. now rewrite H.
Qed.

(** C7 fails on a source archive with [rf/000/a.bmp] and [rf\000\a.bmp],
    two names of one destination path: the conversion succeeds and the
    destination holds two entries of that path. *)
Lemma collision_not_detected :
  "rf/000/a.bmp"%string <> "rf\000\a.bmp"%string
  /\ exists dst,
       outcome (convert_plain_to_v2 (world_of colliding_archive) story_path None)
       = Ok dst
       /\ map fst (written (convert_plain_to_v2 (world_of colliding_archive)
                              story_path None))
          = [(zero_hex ++ "/rf/000/a")%string; (zero_hex ++ "/rf/000/a")%string].
Proof.
  split; [discriminate|].
  eexists. split; vm_compute; reflexivity.
Qed.

(** C7, amended. The conversion makes no check of the destination paths: a
    call that comes to its loop, with a destination that is another file than
    the source, and whose loop body raises on no entry, succeeds also when
    two entries of the source go to one destination path, and has written
    both under that path, in the order of the source. *)
Theorem collision_writes_both w input_path output_path zip_in uuid_bytes dst
    l1 n1 l2 n2 l3 new_name d1 d2 :
  enters_loop w input_path output_path zip_in uuid_bytes dst ->
  other_file w dst input_path ->
  namelist zip_in = (l1 ++ n1 :: l2 ++ n2 :: l3)%list ->
  (forall m, In m (namelist zip_in) ->
             exists r, convert_entry (hex_upper uuid_bytes) zip_in m = Ok r) ->
  convert_entry (hex_upper uuid_bytes) zip_in n1 = Ok (Some (new_name, d1)) ->
  convert_entry (hex_upper uuid_bytes) zip_in n2 = Ok (Some (new_name, d2)) ->
  outcome (convert_plain_to_v2 w input_path output_path) = Ok dst
  /\ exists w1 w2 w3,
       written (convert_plain_to_v2 w input_path output_path)
       = (w1 ++ (new_name, d1) :: w2 ++ (new_name, d2) :: w3)%list.
Proof.
  intros Hloop _ Hnames Hall H1 H2.
  rewrite (convert_plain_to_v2_loop _ _ _ _ _ _ Hloop).
  pose proof (convert_entries_all_Ok (hex_upper uuid_bytes) zip_in
                (namelist zip_in) new_writer Hall) as Hnone.
  destruct (convert_entries _ _ _ _) as [zip_out failure] eqn:Hrun.
  cbn [snd] in Hnone. subst failure. cbn [outcome written].
  split; [reflexivity|].
  apply convert_entries_complete in Hrun. destruct Hrun as [-> _].
  rewrite Hnames. cbn [entries new_writer app].
  set (f := written_for (hex_upper uuid_bytes) zip_in).
  exists (flat_map f l1), (flat_map f l2), (flat_map f l3).
  rewrite flat_map_app. cbn [flat_map]. rewrite flat_map_app. cbn [flat_map].
  unfold f at 2 4.
  rewrite (written_for_Some _ _ _ _ H1), (written_for_Some _ _ _ _ H2).
  reflexivity.
Qed.

Lemma collision_writes_both_witness :
  outcome (convert_plain_to_v2 (world_of colliding_archive) story_path None)
  = Ok zero_destination
  /\ exists w1 w2 w3,
       written (convert_plain_to_v2 (world_of colliding_archive) story_path None)
       = (w1 ++ ((zero_hex ++ "/rf/000/a")%string,
                 [xed; xcd; xf2; x6e; x23; xf6; x15; x7b])
             :: w2 ++ ((zero_hex ++ "/rf/000/a")%string,
                       [x2f; x03; x3d; x1e; x3b; xae; x3d; xf1]) :: w3)%list.
Proof.
  apply (collision_writes_both (world_of colliding_archive) story_path None
           colliding_archive (repeat x00 16) zero_destination
           [("uuid.bin")%string] "rf/000/a.bmp" [] "rf\000\a.bmp" []).
  - repeat split.
  - split; [discriminate | reflexivity].
  - reflexivity.
  - intros m [<-|[<-|[<-|[]]]]; eexists; vm_compute; reflexivity.
  - vm_compute. reflexivity.
  - vm_compute. reflexivity.
Defined.

(** ** Failures before the destination is opened *)

(** C8. When the entry list of the source archive does not contain
    [uuid.bin], the conversion raises the [ValueError] of the missing
    identifier, the destination is never opened for writing, and nothing is
    written. *)
Theorem missing_identifier_fails w input_path output_path zip_in :
  path_exists w input_path = true ->
  Py.endswith (path_name input_path) ".plain.pk" = true ->
  open_read w input_path = Ok zip_in ->
  ~ In "uuid.bin"%string (namelist zip_in) ->
  outcome (convert_plain_to_v2 w input_path output_path)
  = Raise (ValueError "No uuid.bin found in archive")
  /\ opened (convert_plain_to_v2 w input_path output_path) = None
  /\ written (convert_plain_to_v2 w input_path output_path) = [].
Proof.
  intros Hex Hsuf Hz Hno.
  unfold convert_plain_to_v2. rewrite Hex, Hsuf, Hz. cbn [negb].
  destruct (existsb (String.eqb "uuid.bin") (namelist zip_in)) eqn:Hin.
  - apply existsb_eqb_In in Hin. contradiction.
  - cbn [negb]. repeat split.
Qed.

Lemma missing_identifier_fails_witness :
  outcome (convert_plain_to_v2 (world_of anonymous_archive) story_path None)
  = Raise (ValueError "No uuid.bin found in archive")
  /\ opened (convert_plain_to_v2 (world_of anonymous_archive) story_path None) = None
  /\ written (convert_plain_to_v2 (world_of anonymous_archive) story_path None) = [].
Proof.
  apply (missing_identifier_fails (world_of anonymous_archive) story_path None
           anonymous_archive); try reflexivity.
  simpl. intros [H|[]]. discriminate H.
Defined.

(** C9. When the entry [uuid.bin] of the source archive holds a number of
    bytes other than 16, the conversion raises the [ValueError] of
    [UUID(bytes=...)] before the destination is opened for writing: no
    destination is opened and nothing is written. *)
Theorem identifier_of_wrong_length_fails w input_path output_path zip_in uuid_bytes :
  path_exists w input_path = true ->
  Py.endswith (path_name input_path) ".plain.pk" = true ->
  open_read w input_path = Ok zip_in ->
  zip_read zip_in "uuid.bin" = Ok uuid_bytes ->
  List.length uuid_bytes <> 16%nat ->
  outcome (convert_plain_to_v2 w input_path output_path)
  = Raise (ValueError "bytes is not a 16-char string")
  /\ opened (convert_plain_to_v2 w input_path output_path) = None
  /\ written (convert_plain_to_v2 w input_path output_path) = [].
Proof.
  intros Hex Hsuf Hz Hr Hlen.
  unfold convert_plain_to_v2. rewrite Hex, Hsuf, Hz. cbn [negb].
  pose proof (zip_read_In _ _ _ Hr) as Hin.
  apply existsb_eqb_In in Hin. rewrite Hin, Hr. cbn [negb].
  unfold UUID_from_bytes.
  apply Nat.eqb_neq in Hlen. rewrite Hlen. cbn [negb]. repeat split.
Qed.

Lemma identifier_of_wrong_length_fails_witness :
  outcome (convert_plain_to_v2 (world_of short_uuid_archive) story_path None)
  = Raise (ValueError "bytes is not a 16-char string")
  /\ opened (convert_plain_to_v2 (world_of short_uuid_archive) story_path None) = None
  /\ written (convert_plain_to_v2 (world_of short_uuid_archive) story_path None) = [].
Proof.
  apply (identifier_of_wrong_length_fails (world_of short_uuid_archive) story_path None
           short_uuid_archive (repeat x00 15)); try reflexivity.
  simpl. discriminate.
Defined.

(** ** The key *)

(** The key is the same sixteen bytes in every call. *)
Lemma lunii_generic_key_bytes :
  lunii_generic_key
  = [x0a; x7a; xbd; x91; xa9; x40; x54; xa7; x6c; x9d; xd4; xbb; xe3; xc0; xdc; xe0].
Proof. vm_compute. reflexivity. Qed.

(** ** A whole conversion *)

(** The archive with an identifier of sixteen zero bytes, a node index, a
    plain story index of 600 bytes and an unknown file converts to two
    entries under the identifier: the node index as it is, and the story
    index under its name without the suffix, its first 512 bytes changed and
    its last 88 kept. *)
Example small_archive_converted :
  exists out,
    convert_plain_to_v2 (world_of small_archive) story_path None
    = {| outcome := Ok {| anchor := "/";
                          parts := ["tmp"; (zero_hex ++ ".v2.pk")]%string |};
         opened := Some {| anchor := "/";
                           parts := ["tmp"; (zero_hex ++ ".v2.pk")]%string |};
         written := [((zero_hex ++ "/ni")%string, [x01; x02]);
                     ((zero_hex ++ "/si")%string, out)] |}
    /\ List.length out = 600%nat
    /\ skipn 512 out = repeat x2a 88
    /\ firstn 512 out <> repeat x2a 512.
Proof.
  eexists. split; [vm_compute; reflexivity|].
  split; [reflexivity|]. split; [reflexivity|].
  vm_compute. discriminate.
Qed.

(** * Further properties of the conversion *)

(** ** The loop body follows the name of the entry *)

(** Reading a name that the archive lists reads one of its entries of that
    name: it gives what that entry gives. *)
Lemma zip_read_of_In zip_in name :
  In name (namelist zip_in) ->
  exists c, In (name, c) zip_in /\ zip_read zip_in name = c.
Proof.
  intros Hin. unfold zip_read.
  destruct (find _ (rev zip_in)) as [[n c]|] eqn:Hf.
  - apply find_some in Hf. destruct Hf as [He Heq]. cbn [fst snd] in *.
    apply String.eqb_eq in Heq. subst n.
    exists c. split; [now apply in_rev in He | reflexivity].
  - exfalso. unfold namelist in Hin. apply in_map_iff in Hin.
    destruct Hin as ([n d] & Hn & Hin). simpl in Hn. subst n.
    apply in_rev in Hin.
    pose proof (find_none _ _ Hf _ Hin) as Hno. simpl in Hno.
    rewrite String.eqb_refl in Hno. discriminate.
Qed.

Lemma zip_read_In_entry zip_in name data :
  zip_read zip_in name = Ok data -> In (name, Ok data) zip_in.
Proof.
  unfold zip_read. intros H.
  destruct (find _ (rev zip_in)) as [[n d]|] eqn:Hf; [|discriminate].
  apply find_some in Hf. destruct Hf as [Hin Heq]. simpl in *.
  apply String.eqb_eq in Heq. subst n d.
  now apply in_rev in Hin.
Qed.

(** The body of the loop, by the disposition of the name: but for the three
    metadata names it first reads the entry, the unknown ones too. *)
Lemma convert_entry_by_disposition uuid_hex zip_in file_name :
  convert_entry uuid_hex zip_in file_name
  = match classify file_name with
    | Drop => Ok None
    | Unknown => data <- zip_read zip_in file_name ;; Ok None
    | PassThrough t =>
        data <- zip_read zip_in file_name ;;
        Ok (Some ((uuid_hex ++ "/" ++ t)%string, data))
    | TransformAndRename t =>
        data <- zip_read zip_in file_name ;;
        output_data <- encrypt_first_512_bytes data lunii_generic_key ;;
        Ok (Some ((uuid_hex ++ "/" ++ t)%string, output_data))
    end.
Proof.
  unfold convert_entry, classify.
  destruct (existsb _ _); [reflexivity|].
  destruct (zip_read zip_in file_name) as [data|e]; cbn [bind];
    (destruct (String.eqb file_name "ni" || String.eqb file_name "nm");
       [reflexivity|];
     destruct (Py.endswith file_name ".plain"); [reflexivity|];
     destruct (_ || _ || _ || _); [reflexivity|];
     destruct (_ || _ || _ || _); reflexivity).
Qed.

(** The body of the loop on an entry that reads. *)
Lemma convert_entry_classify uuid_hex zip_in file_name data :
  zip_read zip_in file_name = Ok data ->
  convert_entry uuid_hex zip_in file_name
  = match classify file_name with
    | Drop | Unknown => Ok None
    | PassThrough t => Ok (Some ((uuid_hex ++ "/" ++ t)%string, data))
    | TransformAndRename t =>
        output_data <- encrypt_first_512_bytes data lunii_generic_key ;;
        Ok (Some ((uuid_hex ++ "/" ++ t)%string, output_data))
    end.
Proof.
  intros Hread. rewrite convert_entry_by_disposition, Hread.
  destruct (classify file_name); reflexivity.
Qed.

Lemma convert_entries_no_failure uuid_hex zip_in file_list : forall out out',
  convert_entries uuid_hex zip_in file_list out = (out', None) ->
  forall n, In n file_list -> exists r, convert_entry uuid_hex zip_in n = Ok r.
Proof.
  induction file_list as [|m rest IH]; intros out out' H n Hin; [contradiction|].
  simpl in H.
  destruct (convert_entry uuid_hex zip_in m) as [[e|]|err] eqn:Hm; [| |discriminate];
    (destruct Hin as [<-|Hin]; [eauto | eapply IH; eauto]).
Qed.

(** ** What a successful conversion writes *)

Lemma written_names_for uuid_hex zip_in (l : list string) :
  (forall n, In n l -> exists r, convert_entry uuid_hex zip_in n = Ok r) ->
  map fst (flat_map (written_for uuid_hex zip_in) l) = flat_map (names_for uuid_hex) l
  /\ (List.length (flat_map (written_for uuid_hex zip_in) l)
      + List.length (filter is_skipped l) = List.length l)%nat.
Proof.
  induction l as [|n l IH]; intros Hok; [split; reflexivity|].
  destruct IH as [IHn IHc].
  { intros m Hm. apply Hok. now right. }
  destruct (Hok n (or_introl eq_refl)) as [r Hr].
  cbn [flat_map filter]. rewrite map_app, length_app, IHn.
  set (W := flat_map (written_for uuid_hex zip_in) l) in *.
  set (N := flat_map (names_for uuid_hex) l) in *.
  set (S := filter is_skipped l) in *.
  unfold written_for, names_for, is_skipped.
  rewrite Hr. rewrite convert_entry_by_disposition in Hr.
  destruct (classify n) as [|t|t|].
  - injection Hr as <-. simpl. split; [reflexivity | lia].
  - destruct (zip_read zip_in n) as [data|e]; [|discriminate].
    cbn [bind] in Hr. injection Hr as <-. simpl. split; [reflexivity | lia].
  - destruct (zip_read zip_in n) as [data|e]; [|discriminate].
    cbn [bind] in Hr.
    destruct (encrypt_first_512_bytes data lunii_generic_key) as [o|e];
      [|discriminate].
    cbn [bind] in Hr. injection Hr as <-. simpl. split; [reflexivity | lia].
  - destruct (zip_read zip_in n) as [data|e]; [|discriminate].
    cbn [bind] in Hr. injection Hr as <-. simpl. split; [reflexivity | lia].
Qed.

(** X1. A conversion that succeeds has written one entry for each name of the
    source that is neither dropped nor unknown, in the order of the source
    and under the name that the classification of the source name gives;
    the written entries and the skipped names add up to the names of the
    source. *)
Theorem written_in_source_order w input_path output_path dst zip_in uuid_bytes :
  outcome (convert_plain_to_v2 w input_path output_path) = Ok dst ->
  open_read w input_path = Ok zip_in ->
  zip_read zip_in "uuid.bin" = Ok uuid_bytes ->
  map fst (written (convert_plain_to_v2 w input_path output_path))
  = flat_map (names_for (hex_upper uuid_bytes)) (namelist zip_in)
  /\ (List.length (written (convert_plain_to_v2 w input_path output_path))
      + List.length (filter is_skipped (namelist zip_in))
      = List.length (namelist zip_in))%nat.
Proof.
  intros Hok Hz Hr.
  destruct (convert_plain_to_v2_cases w input_path output_path)
    as [[_ [e He]] | (z & b & dst' & Hz' & Hr' & _ & _ & Hrun)].
  - rewrite He in Hok. discriminate.
  - rewrite Hz in Hz'. injection Hz' as <-.
    rewrite Hr in Hr'. injection Hr' as <-.
    rewrite Hrun in *. clear Hrun.
    destruct (convert_entries _ _ _ _) as [zip_out [e|]] eqn:Hloop;
      cbn [outcome written] in *; [discriminate|].
    pose proof (convert_entries_no_failure _ _ _ _ _ Hloop) as Hall.
    apply convert_entries_complete in Hloop. destruct Hloop as [-> _].
    cbn [entries new_writer app].
    apply written_names_for. exact Hall.
Qed.

Lemma written_in_source_order_witness :
  map fst (written (convert_plain_to_v2 (world_of small_archive) story_path None))
  = [(zero_hex ++ "/ni")%string; (zero_hex ++ "/si")%string]
  /\ (List.length (written (convert_plain_to_v2 (world_of small_archive) story_path None))
      + 2 = 4)%nat.
Proof.
  apply (written_in_source_order (world_of small_archive) story_path None
           {| anchor := "/"; parts := ["tmp"; (zero_hex ++ ".v2.pk")]%string |}
           small_archive (repeat x00 16));
    vm_compute; reflexivity.
Defined.

(** ** A failure in the loop *)




(** ** When the conversion succeeds *)

Lemma encryptable_Ok data :
  encryptable data ->
  exists out, encrypt_first_512_bytes data lunii_generic_key = Ok out.
Proof.
  intros Henc. apply encrypt_first_512_bytes_Ok_iff.
  destruct Henc as [->|[Hmod Hlen]]; [now left | right].
  unfold XXTEA.accepts. rewrite length_head_of.
  split; [reflexivity|]. split; [exact Hmod | lia].
Qed.

(** X3. A conversion that comes to its loop, with a destination that is
    another file than the source, succeeds and returns the destination path
    when every entry that the loop reads, which is every entry but those of
    the three metadata names, can be read, and every entry that is to be
    transformed is empty or has a head, its first [min(512, len)] bytes, of a
    length that is a multiple of 4 and at least 8; the bytes of the other
    entries, of any length, cannot make it fail. *)
Theorem conversion_succeeds w input_path output_path zip_in uuid_bytes dst :
  enters_loop w input_path output_path zip_in uuid_bytes dst ->
  other_file w dst input_path ->
  (forall n c, In (n, c) zip_in -> classify n <> Drop -> exists d, c = Ok d) ->
  (forall n d t, In (n, Ok d) zip_in -> classify n = TransformAndRename t ->
                 encryptable d) ->
  outcome (convert_plain_to_v2 w input_path output_path) = Ok dst
  /\ opened (convert_plain_to_v2 w input_path output_path) = Some dst.
Proof.
  intros Hloop _ Hreads Hall.
  rewrite (convert_plain_to_v2_loop _ _ _ _ _ _ Hloop).
  pose proof (convert_entries_all_Ok (hex_upper uuid_bytes) zip_in (namelist zip_in)
                new_writer) as Hnone.
  destruct (convert_entries _ _ _ _) as [zip_out failure]. cbn [snd] in Hnone.
  rewrite Hnone; [split; reflexivity|].
  intros n Hin.
  rewrite convert_entry_by_disposition.
  destruct (classify n) as [|t|t|] eqn:Hc; [eexists; reflexivity| | |];
    destruct (zip_read_of_In zip_in n Hin) as (c & Hc_in & Hread);
    (destruct (Hreads n c Hc_in) as [data ->]; [rewrite Hc; discriminate|]);
    rewrite Hread; cbn [bind]; try (eexists; reflexivity).
  destruct (encryptable_Ok data (Hall n data t Hc_in Hc)) as [out ->].
  eexists. reflexivity.
Qed.

Lemma conversion_succeeds_witness :
  outcome (convert_plain_to_v2 (world_of small_archive) story_path None)
  = Ok zero_destination
  /\ opened (convert_plain_to_v2 (world_of small_archive) story_path None)
     = Some zero_destination.
Proof.
  apply (conversion_succeeds (world_of small_archive) story_path None small_archive
           (repeat x00 16) zero_destination).
  - repeat split.
  - split; [discriminate | reflexivity].
  - intros n c Hin _. simpl in Hin.
    destruct Hin as [H|[H|[H|[H|[]]]]]; injection H as <- <-; eexists; reflexivity.
  - intros n d t Hin Hc. simpl in Hin.
    destruct Hin as [H|[H|[H|[H|[]]]]]; injection H as <- <-;
      try (vm_compute in Hc; discriminate Hc).
    right. split; [vm_compute; reflexivity | simpl List.length; lia].
Defined.

(** ** The destination path *)

Lemma path_name_join p child : path_name (path_join p child) = child.
Proof.
  unfold path_name, path_join. cbn [parts]. apply last_last.
Qed.

Lemma path_parent_join p child : path_parent (path_join p child) = p.
Proof.
  unfold path_parent, path_join. cbn [parts anchor].
  rewrite removelast_last. destruct p; reflexivity.
Qed.

Lemma convert_plain_to_v2_opened w input_path output_path dst :
  opened (convert_plain_to_v2 w input_path output_path) = Some dst ->
  exists zip_in uuid_bytes,
    open_read w input_path = Ok zip_in
    /\ zip_read zip_in "uuid.bin" = Ok uuid_bytes
    /\ List.length uuid_bytes = 16%nat
    /\ dst = destination_path input_path output_path (hex_upper uuid_bytes).
Proof.
  unfold convert_plain_to_v2.
  destruct (path_exists w input_path); cbn [negb]; [|discriminate].
  destruct (Py.endswith (path_name input_path) ".plain.pk"); cbn [negb];
    [|discriminate].
  destruct (open_read w input_path) as [zip_in|e] eqn:Hz; [|discriminate].
  destruct (existsb (String.eqb "uuid.bin") (namelist zip_in)); cbn [negb];
    [|discriminate].
  destruct (zip_read zip_in "uuid.bin") as [uuid_bytes|e] eqn:Hr; [|discriminate].
  destruct (UUID_from_bytes uuid_bytes) as [story_uuid|e] eqn:Hu; [|discriminate].
  apply UUID_from_bytes_Ok in Hu. destruct Hu as [Hlen Hhex]. rewrite Hhex.
  fold (destination_path input_path output_path (hex_upper uuid_bytes)).
  intros H. exists zip_in, uuid_bytes.
  split; [reflexivity|]. split; [exact Hr|]. split; [exact Hlen|].
  destruct (open_write w _) as [[]|e]; [destruct (convert_entries _ _ _ _)|];
    cbn [opened] in H; congruence.
Qed.

(** X4. The destination that a conversion opens is the path it was given,
    as it is; and when it was given none, the file beside the source (same
    parent) whose name is the 32 uppercase hexadecimal digits of the
    identifier followed by [.v2.pk]. *)
Theorem destination_of_conversion w input_path output_path dst :
  opened (convert_plain_to_v2 w input_path output_path) = Some dst ->
  exists zip_in uuid_bytes,
    open_read w input_path = Ok zip_in
    /\ zip_read zip_in "uuid.bin" = Ok uuid_bytes
    /\ match output_path with
       | Some p => dst = p
       | None =>
           path_name dst = (hex_upper uuid_bytes ++ ".v2.pk")%string
           /\ path_parent dst = path_parent input_path
           /\ String.length (path_name dst) = 38%nat
       end.
Proof.
  intros H. apply convert_plain_to_v2_opened in H.
  destruct H as (zip_in & uuid_bytes & Hz & Hr & Hlen & ->).
  exists zip_in, uuid_bytes. split; [exact Hz|]. split; [exact Hr|].
  destruct output_path as [p|]; cbn [destination_path]; [reflexivity|].
  rewrite path_name_join, path_parent_join, length_append, length_hex_upper, Hlen.
  repeat split.
Qed.

Lemma destination_of_conversion_witness :
  exists zip_in uuid_bytes,
    open_read (world_of small_archive) story_path = Ok zip_in
    /\ zip_read zip_in "uuid.bin" = Ok uuid_bytes
    /\ path_name zero_destination = (hex_upper uuid_bytes ++ ".v2.pk")%string
    /\ path_parent zero_destination = path_parent story_path
    /\ String.length (path_name zero_destination) = 38%nat.
Proof.
  apply (destination_of_conversion (world_of small_archive) story_path None
           zero_destination).
  vm_compute. reflexivity.
Defined.

(** ** The transform and what follows the head *)

(** X5. What follows the first 512 bytes of a buffer has no part in the
    transform: for a buffer [H] of 512 bytes or more, the transform of [H]
    followed by [T] is the transform of [H], followed by [T], and fails as
    the transform of [H] fails. *)
Theorem encrypt_first_512_bytes_app (H T key : bytes) :
  (512 <= List.length H)%nat ->
  encrypt_first_512_bytes (H ++ T) key
  = (x <- encrypt_first_512_bytes H key ;; Ok (x ++ T)).
Proof.
  intros Hlen.
  assert (HneH : H <> []) by (destruct H; [simpl in Hlen; lia | discriminate]).
  assert (HneHT : (H ++ T)%list <> []) by (destruct H; [congruence | discriminate]).
  rewrite (encrypt_first_512_bytes_nonempty _ key HneHT).
  rewrite (encrypt_first_512_bytes_nonempty _ key HneH).
  assert (Hhead : head_of (H ++ T) = head_of H).
  { unfold head_of. rewrite length_app.
    replace (Nat.min 512 (List.length H + List.length T)) with 512%nat by lia.
    replace (Nat.min 512 (List.length H)) with 512%nat by lia.
    rewrite firstn_app.
    replace (512 - List.length H)%nat with 0%nat by lia.
    simpl. apply app_nil_r. }
  assert (Htail : tail_of (H ++ T) = (tail_of H ++ T)%list).
  { unfold tail_of. rewrite length_app.
    replace (Nat.min 512 (List.length H + List.length T)) with 512%nat by lia.
    replace (Nat.min 512 (List.length H)) with 512%nat by lia.
    rewrite skipn_app.
    replace (512 - List.length H)%nat with 0%nat by lia. reflexivity. }
  rewrite Hhead, Htail.
  destruct (XXTEA.encrypt _ _ _) as [enc|e]; cbn [bind]; [|reflexivity].
  now rewrite app_assoc.
Qed.

Lemma encrypt_first_512_bytes_app_witness :
  encrypt_first_512_bytes (repeat x2a 512 ++ [x01; x02; x03]) lunii_generic_key
  = (x <- encrypt_first_512_bytes (repeat x2a 512) lunii_generic_key ;;
     Ok (x ++ [x01; x02; x03])).
Proof.
  apply encrypt_first_512_bytes_app. rewrite repeat_length. apply le_n.
Defined.

(** ** Entries that the loop passes over *)

Lemma find_app_first {A : Type} (f : A -> bool) (l1 l2 : list A) :
  find f (l1 ++ l2)
  = match find f l1 with
    | Some x => Some x
    | None => find f l2
    end.
Proof.
  induction l1 as [|x l1 IH]; simpl; [reflexivity|].
  destruct (f x); [reflexivity | exact IH].
Qed.

(** Reading a name is not affected by an entry of another name. *)
Lemma zip_read_remove z1 n d z2 m :
  m <> n -> zip_read (z1 ++ (n, d) :: z2) m = zip_read (z1 ++ z2) m.
Proof.
  intros Hne. unfold zip_read.
  rewrite !rev_app_distr. cbn [rev]. rewrite <- app_assoc.
  rewrite !find_app_first. cbn [app find fst].
  destruct (String.eqb n m) eqn:Heq; [|reflexivity].
  apply String.eqb_eq in Heq. congruence.
Qed.

Lemma find_none_of {A : Type} (f : A -> bool) (l : list A) :
  (forall x, In x l -> f x = false) -> find f l = None.
Proof.
  induction l as [|x l IH]; intros H; [reflexivity|].
  simpl. rewrite (H x (or_introl eq_refl)). apply IH.
  intros y Hy. apply H. now right.
Qed.

(** Reading a name reads the last entry of that name. *)
Lemma zip_read_last z1 n c z2 :
  ~ In n (namelist z2) -> zip_read (z1 ++ (n, c) :: z2) n = c.
Proof.
  intros Hno. unfold zip_read.
  rewrite rev_app_distr. cbn [rev]. rewrite <- app_assoc.
  rewrite find_app_first, find_none_of.
  - cbn [app find fst snd]. now rewrite String.eqb_refl.
  - intros [m d] Hin. cbn [fst]. apply String.eqb_neq. intros ->.
    apply Hno. apply in_rev in Hin. unfold namelist.
    now apply (in_map fst) in Hin.
Qed.

Lemma convert_entry_remove uuid_hex z1 n c z2 m :
  classify n = Drop \/ ~ In n (namelist (z1 ++ z2)) ->
  In m (namelist (z1 ++ z2)) ->
  convert_entry uuid_hex (z1 ++ (n, c) :: z2) m = convert_entry uuid_hex (z1 ++ z2) m.
Proof.
  intros Hcase Hin.
  destruct (string_dec m n) as [->|Hne].
  - destruct Hcase as [Hdrop|Hno]; [|contradiction].
    rewrite !convert_entry_by_disposition, Hdrop. reflexivity.
  - unfold convert_entry. now rewrite (zip_read_remove z1 n c z2 m Hne).
Qed.

Lemma convert_entries_ext uuid_hex z z' file_list : forall out,
  (forall m, In m file_list -> convert_entry uuid_hex z m = convert_entry uuid_hex z' m) ->
  convert_entries uuid_hex z file_list out = convert_entries uuid_hex z' file_list out.
Proof.
  induction file_list as [|m rest IH]; intros out Hext; [reflexivity|].
  simpl. rewrite <- (Hext m (or_introl eq_refl)).
  destruct (convert_entry uuid_hex z m) as [[e|]|err]; [| |reflexivity];
    apply IH; intros k Hk; apply Hext; now right.
Qed.

Lemma convert_entries_skip uuid_hex z l1 n l2 : forall out,
  convert_entry uuid_hex z n = Ok None ->
  convert_entries uuid_hex z (l1 ++ n :: l2) out
  = convert_entries uuid_hex z (l1 ++ l2) out.
Proof.
  induction l1 as [|m l1 IH]; intros out Hn; simpl.
  - now rewrite Hn.
  - destruct (convert_entry uuid_hex z m) as [[e|]|err]; [| |reflexivity];
      now apply IH.
Qed.

(** X6. An entry that the loop passes over without raising has no part in
    the conversion: a metadata file other than [uuid.bin], which the loop
    does not read, or a file of an unknown kind that can be read and is the
    only entry of its name.  With it or without it in the source archive,
    and the destination another file than the source, the call returns or
    raises the same, opens the same destination and writes the same
    entries. *)
Theorem skipped_entry_is_ignored w w' input_path output_path z1 n c z2 :
  is_skipped n = true ->
  n <> "uuid.bin"%string ->
  classify n = Drop
  \/ ((exists d, c = Ok d) /\ ~ In n (namelist (z1 ++ z2))) ->
  open_read w input_path = Ok (z1 ++ (n, c) :: z2)%list ->
  open_read w' input_path = Ok (z1 ++ z2)%list ->
  path_exists w input_path = path_exists w' input_path ->
  (forall p, open_write w p = open_write w' p) ->
  (forall dst, opened (convert_plain_to_v2 w input_path output_path) = Some dst ->
               other_file w dst input_path /\ other_file w' dst input_path) ->
  convert_plain_to_v2 w input_path output_path
  = convert_plain_to_v2 w' input_path output_path.
Proof.
  intros Hskip Hne Hcase Hz Hz' Hex Hw _.
  unfold convert_plain_to_v2. rewrite <- Hex, Hz, Hz'.
  destruct (path_exists w input_path); [|reflexivity].
  destruct (Py.endswith _ _); [|reflexivity]. cbn [negb].
  assert (Hnames : namelist (z1 ++ (n, c) :: z2)
                   = (namelist z1 ++ n :: namelist z2)%list).
  { unfold namelist. now rewrite map_app. }
  assert (Hnames' : namelist (z1 ++ z2) = (namelist z1 ++ namelist z2)%list).
  { unfold namelist. now rewrite map_app. }
  assert (Hmem : existsb (String.eqb "uuid.bin") (namelist (z1 ++ (n, c) :: z2))
                 = existsb (String.eqb "uuid.bin") (namelist (z1 ++ z2))).
  { rewrite Hnames, Hnames', !existsb_app. cbn [existsb].
    replace (String.eqb "uuid.bin" n) with false; [reflexivity|].
    symmetry. apply String.eqb_neq. congruence. }
  rewrite Hmem.
  destruct (existsb _ (namelist (z1 ++ z2))); [|reflexivity]. cbn [negb].
  rewrite (zip_read_remove z1 n c z2 "uuid.bin") by congruence.
  destruct (zip_read (z1 ++ z2) "uuid.bin") as [uuid_bytes|e]; [|reflexivity].
  destruct (UUID_from_bytes uuid_bytes) as [story_uuid|e]; [|reflexivity].
  rewrite <- Hw.
  destruct (open_write w _) as [[]|e]; [|reflexivity].
  set (u := Py.upper (UUID_hex story_uuid)).
  assert (Hloop : convert_entries u (z1 ++ (n, c) :: z2)
                    (namelist (z1 ++ (n, c) :: z2))
                    {| entries := []; files_processed := 0 |}
                  = convert_entries u (z1 ++ z2) (namelist (z1 ++ z2))
                      {| entries := []; files_processed := 0 |}).
  { rewrite Hnames. rewrite convert_entries_skip.
    - rewrite <- Hnames'. apply convert_entries_ext.
      intros m Hm. apply convert_entry_remove; [|exact Hm].
      destruct Hcase as [Hdrop|[_ Hno]]; [now left | now right].
    - rewrite convert_entry_by_disposition.
      destruct Hcase as [Hdrop|[[d ->] Hno]]; [now rewrite Hdrop|].
      rewrite zip_read_last.
      + unfold is_skipped in Hskip.
        destruct (classify n); [reflexivity | discriminate | discriminate | reflexivity].
      + intros Hin. apply Hno. rewrite Hnames'. apply in_or_app. now right. }
  rewrite Hloop. reflexivity.
Qed.

Lemma skipped_entry_is_ignored_witness :
  convert_plain_to_v2 (world_of small_archive) story_path None
  = convert_plain_to_v2
      (world_of [("uuid.bin", Ok (repeat x00 16)); ("ni", Ok [x01; x02]);
                 ("si.plain", Ok (repeat x2a 600))]%string)
      story_path None.
Proof.
  apply (skipped_entry_is_ignored (world_of small_archive) _ story_path None
           [("uuid.bin", Ok (repeat x00 16)); ("ni", Ok [x01; x02]);
            ("si.plain", Ok (repeat x2a 600))]%string
           "notes.txt" (Ok [x00]) []);
    try reflexivity.
  - discriminate.
  - right. split; [eexists; reflexivity|].
    simpl. intros [H|[H|[H|[]]]]; discriminate H.
  - intros dst H. vm_compute in H. injection H as <-.
    split; (split; [discriminate | reflexivity]).
Defined.

(** ** The counter of the loop *)

(** X7. The counter [files_processed] counts the calls of [writestr]: when
    the loop ends, or an exception cuts it short, the counter has grown by
    the number of entries added to the destination, so that from zero it is
    the number of entries of the destination. *)
Theorem files_processed_counts_entries uuid_hex zip_in file_list : forall out,
  (files_processed (fst (convert_entries uuid_hex zip_in file_list out))
   - files_processed out
   = Z.of_nat (List.length (entries (fst (convert_entries uuid_hex zip_in file_list out))))
     - Z.of_nat (List.length (entries out)))%Z
  /\ (List.length (entries out)
      <= List.length (entries (fst (convert_entries uuid_hex zip_in file_list out))))%nat.
Proof.
  induction file_list as [|n rest IH]; intros out; simpl.
  - split; lia.
  - destruct (convert_entry uuid_hex zip_in n) as [[e|]|err].
    + destruct (IH (writestr out e)) as [Hc Hl].
      cbn [writestr entries files_processed] in Hc, Hl.
      rewrite length_app in Hc, Hl. simpl in Hc, Hl. split; lia.
    + apply IH.
    + simpl. split; lia.
Qed.

(** ** The round count on any head *)

(** X8. On the empty buffer the round count raises [ZeroDivisionError]; on a
    buffer of 1 to 512 bytes, aligned or not, the floating-point computation
    gives [1 + floor(208 / len)], a count between 1 and 209 and never the
    zero that would let the cipher choose its own. *)
Theorem lunii_tea_rounds_range (buffer : bytes) :
  (List.length buffer <= 512)%nat ->
  match buffer with
  | [] => lunii_tea_rounds buffer = Raise (ZeroDivisionError "float division by zero")
  | _ :: _ =>
      lunii_tea_rounds buffer = Ok (1 + 208 / Py.len buffer)%Z
      /\ (1 <= 1 + 208 / Py.len buffer <= 209)%Z
  end.
Proof.
  intros Hlen. destruct buffer as [|b rest]; [vm_compute; reflexivity|].
  split.
  - apply lunii_tea_rounds_upto_512. simpl List.length in *. lia.
  - assert (Hpos : (1 <= Py.len (b :: rest))%Z).
    { unfold Py.len. simpl List.length. lia. }
    assert (H0 : (0 <= 208 / Py.len (b :: rest))%Z) by (apply Z.div_pos; lia).
    assert (H1 : (208 / Py.len (b :: rest) <= 208)%Z).
    { apply Z.div_le_upper_bound; nia. }
    lia.
Qed.

Lemma lunii_tea_rounds_range_witness :
  lunii_tea_rounds [x01; x02; x03; x04; x05] = Ok 42%Z
  /\ (1 <= 42 <= 209)%Z.
Proof.
  apply (lunii_tea_rounds_range [x01; x02; x03; x04; x05]). simpl. lia.
Defined.

(** ** The key *)

Lemma byte_value_roundtrip x :
  (0 <= x < 256)%Z ->
  Z.of_N (Byte.to_N match Byte.of_N (Z.to_N x) with
                    | Some b => b
                    | None => x00
                    end) = x.
Proof.
  intros Hx. destruct (Byte.of_N (Z.to_N x)) as [b|] eqn:Hb.
  - apply Byte.to_of_N in Hb. rewrite Hb. lia.
  - apply Byte.of_N_None_iff in Hb. lia.
Qed.

Lemma land_255_range y : (0 <= Z.land y 255 < 256)%Z.
Proof.
  change 255%Z with (Z.ones 8). rewrite Z.land_ones by lia.
  apply Z.mod_pos_bound. lia.
Qed.

(** Four bytes, little end first, put together again. *)
Lemma word_of_its_bytes k :
  (0 <= k < 2 ^ 32)%Z ->
  Z.lor (k mod 2 ^ 8)
    (Z.lor (Z.shiftl (Z.shiftr k 8 mod 2 ^ 8) 8)
       (Z.lor (Z.shiftl (Z.shiftr k 16 mod 2 ^ 8) 16)
          (Z.shiftl (Z.shiftr k 24 mod 2 ^ 8) 24))) = k.
Proof.
  intros Hk. rewrite <- (Z.mod_small k (2 ^ 32)) at 5 by lia.
  apply Z.bits_inj'. intros n Hn.
  rewrite !Z.lor_spec, !Z.shiftl_spec, !Z.testbit_mod_pow2 by lia.
  destruct (Z.ltb_spec n 8), (Z.ltb_spec (n - 8) 8), (Z.ltb_spec (n - 16) 8),
    (Z.ltb_spec (n - 24) 8), (Z.ltb_spec n 32);
    try (exfalso; lia); cbn [andb orb];
    rewrite ?(Z.testbit_neg_r _ (n - 8)), ?(Z.testbit_neg_r _ (n - 16)),
      ?(Z.testbit_neg_r _ (n - 24)) by lia;
    rewrite ?Z.shiftr_spec by lia;
    rewrite ?Z.sub_add, ?orb_false_r; reflexivity.
Qed.

(** X9. The key has four bytes for each word of the vector, the low byte of
    a word first: read back as little-endian words, as the cipher reads its
    key, the bytes give the vector again.  With the four words of
    [raw_key_generic] the key has the 16 bytes that the cipher asks for. *)
Theorem vectkey_to_bytes_words (key_vect : list Z) :
  Forall (fun k => 0 <= k < 2 ^ 32)%Z key_vect ->
  List.length (vectkey_to_bytes key_vect) = (4 * List.length key_vect)%nat
  /\ XXTEA.bytes2longs (vectkey_to_bytes key_vect) = key_vect.
Proof.
  induction 1 as [|k kv Hk Hkv [IHl IHw]]; [split; reflexivity|].
  unfold vectkey_to_bytes in *. cbn [map List.concat].
  unfold to_bytes_4_little at 1 3. cbn [map app List.length XXTEA.bytes2longs].
  split; [rewrite IHl; lia|].
  rewrite IHw. f_equal.
  unfold XXTEA.Z_of_byte.
  rewrite !byte_value_roundtrip by apply land_255_range.
  change (8 * 0)%Z with 0%Z. change (8 * 1)%Z with 8%Z.
  change (8 * 2)%Z with 16%Z. change (8 * 3)%Z with 24%Z.
  rewrite Z.shiftr_0_r.
  change 255%Z with (Z.ones 8). rewrite !Z.land_ones by lia.
  apply word_of_its_bytes. exact Hk.
Qed.

Lemma vectkey_to_bytes_words_witness :
  List.length lunii_generic_key = 16%nat
  /\ XXTEA.bytes2longs lunii_generic_key = raw_key_generic.
Proof.
  apply (vectkey_to_bytes_words raw_key_generic).
  unfold raw_key_generic. repeat constructor; lia.
Defined.

(** ** The identifier in the destination paths *)

Lemma HEX_digit_value d :
  (0 <= d < 16)%Z ->
  Z.of_N (N_of_ascii (HEX_digit d)) = (if (d <? 10)%Z then 48 + d else 55 + d)%Z.
Proof.
  intros Hd. unfold HEX_digit.
  destruct (d <? 10)%Z; rewrite N_ascii_embedding; lia.
Qed.

Lemma HEX_digit_inj a b :
  (0 <= a < 16)%Z -> (0 <= b < 16)%Z -> HEX_digit a = HEX_digit b -> a = b.
Proof.
  intros Ha Hb Heq.
  pose proof (HEX_digit_value a Ha) as Va.
  pose proof (HEX_digit_value b Hb) as Vb.
  rewrite Heq in Va. rewrite Va in Vb.
  destruct (Z.ltb_spec a 10), (Z.ltb_spec b 10); lia.
Qed.

Lemma byte_HEX_inj x y : byte_HEX x = byte_HEX y -> x = y.
Proof.
  unfold byte_HEX. intros H. injection H as Hhi Hlo.
  pose proof (Z_of_byte_range x) as Hx. pose proof (Z_of_byte_range y) as Hy.
  set (v := Z.of_N (Byte.to_N x)) in *. set (v' := Z.of_N (Byte.to_N y)) in *.
  apply HEX_digit_inj in Hlo; [|apply Z.mod_pos_bound; lia..].
  apply HEX_digit_inj in Hhi;
    [|split; [apply Z.div_pos; lia | apply Z.div_lt_upper_bound; lia]..].
  assert (Hv : v = v').
  { rewrite (Z.div_mod v 16), (Z.div_mod v' 16) by lia. now rewrite Hhi, Hlo. }
  unfold v, v' in Hv. apply N2Z.inj in Hv.
  pose proof (Byte.of_to_N x) as Ex. rewrite Hv, Byte.of_to_N in Ex.
  now injection Ex.
Qed.

Lemma hex_upper_inj b1 : forall b2, hex_upper b1 = hex_upper b2 -> b1 = b2.
Proof.
  induction b1 as [|x b1 IH]; intros [|y b2] H.
  - reflexivity.
  - change (hex_upper (y :: b2)) with (byte_HEX y ++ hex_upper b2)%string in H.
    unfold byte_HEX in H. discriminate H.
  - change (hex_upper (x :: b1)) with (byte_HEX x ++ hex_upper b1)%string in H.
    unfold byte_HEX in H. discriminate H.
  - change (hex_upper (x :: b1)) with (byte_HEX x ++ hex_upper b1)%string in H.
    change (hex_upper (y :: b2)) with (byte_HEX y ++ hex_upper b2)%string in H.
    unfold byte_HEX at 1 2 in H. cbn [append] in H.
    injection H as Hhi Hlo Hrest.
    f_equal; [|now apply IH].
    apply byte_HEX_inj. unfold byte_HEX. now rewrite Hhi, Hlo.
Qed.

(** X10. Two identifiers that give the same hexadecimal string are the same
    sixteen bytes: different identifiers never share a root in the
    destination, nor a default destination name. *)
Theorem identifier_hex_injective b1 b2 u1 u2 :
  UUID_from_bytes b1 = Ok u1 ->
  UUID_from_bytes b2 = Ok u2 ->
  Py.upper (UUID_hex u1) = Py.upper (UUID_hex u2) ->
  b1 = b2.
Proof.
  intros H1 H2 Heq.
  apply UUID_from_bytes_Ok in H1, H2.
  destruct H1 as [_ E1]. destruct H2 as [_ E2].
  rewrite E1, E2 in Heq. now apply hex_upper_inj.
Qed.

Lemma identifier_hex_injective_witness : repeat xab 16 = repeat xab 16.
Proof.
  apply (identifier_hex_injective (repeat xab 16) (repeat xab 16)
           {| uuid_int := Py.int_from_bytes_big (repeat xab 16) |}
           {| uuid_int := Py.int_from_bytes_big (repeat xab 16) |});
    reflexivity.
Defined.

(** ** Names in the image and audio subtrees *)

Lemma substring_0_0 s : substring 0 0 s = EmptyString.
Proof. destruct s; reflexivity. Qed.

Lemma substring_split s : forall k,
  (k <= String.length s)%nat ->
  (substring 0 k s ++ substring k (String.length s - k) s)%string = s.
Proof.
  induction s as [|c s IH]; intros k Hk.
  - simpl in Hk. replace k with 0%nat by lia. reflexivity.
  - destruct k as [|k].
    + rewrite substring_0_0. cbn [append]. rewrite Nat.sub_0_r. apply substring_all.
    + cbn [substring String.length Nat.sub append]. rewrite IH; [reflexivity|].
      simpl in Hk. lia.
Qed.

Lemma drop_last4_append s suffix :
  String.length suffix = 4%nat ->
  Py.endswith s suffix = true ->
  (Py.drop_last4 s ++ suffix)%string = s.
Proof.
  intros Hlen Hends. unfold Py.endswith in Hends. rewrite Hlen in Hends.
  apply andb_true_iff in Hends. destruct Hends as [Hle Heq].
  apply Nat.leb_le in Hle. apply String.eqb_eq in Heq.
  unfold Py.drop_last4.
  pose proof (substring_split s (String.length s - 4)) as Hs.
  replace (String.length s - (String.length s - 4))%nat with 4%nat in Hs by lia.
  rewrite Heq in Hs. apply Hs. lia.
Qed.

Lemma prefix_empty s : String.prefix EmptyString s = true.
Proof. destruct s; reflexivity. Qed.

Lemma no_backslash_normalized s : Py.contains "\" (normalized s) = false.
Proof.
  unfold normalized, Py.replace.
  induction s as [|c s IH]; [reflexivity|].
  cbn [Py.replace_from String.prefix String.length Nat.sub].
  destruct (ascii_dec "\" c) as [Hc|Hc].
  - rewrite prefix_empty. cbn [append Py.contains String.prefix].
    destruct (ascii_dec "\" "/") as [Habs|_]; [discriminate Habs|].
    exact IH.
  - cbn [Py.contains String.prefix].
    destruct (ascii_dec "\" c) as [Hc'|_]; [contradiction|].
    exact IH.
Qed.

Lemma no_backslash_substring s : forall k,
  Py.contains "\" s = false -> Py.contains "\" (substring 0 k s) = false.
Proof.
  induction s as [|c s IH]; intros k H.
  - destruct k; reflexivity.
  - destruct k as [|k]; [reflexivity|].
    cbn [substring]. cbn [Py.contains String.prefix] in H |- *.
    destruct (ascii_dec "\" c) as [Hc|Hc];
      [rewrite prefix_empty in H; discriminate H|].
    cbn [orb] in H |- *. now apply IH.
Qed.

(** The branch of the loop body for a name in a subtree [subtree], with the
    extension [ext] of that subtree. *)
Lemma stripped_name base ext t :
  String.length ext = 4%nat ->
  t = (if Py.endswith base ext then Py.drop_last4 base else base) ->
  Py.contains "\" base = false ->
  (if Py.endswith base ext then (t ++ ext)%string = base else t = base)
  /\ Py.contains "\" t = false.
Proof.
  intros Hlen -> Hno. destruct (Py.endswith base ext) eqn:Hends.
  - split; [now apply drop_last4_append|].
    unfold Py.drop_last4. now apply no_backslash_substring.
  - split; [reflexivity | exact Hno].
Qed.

(** X11. An entry in the image subtree whose name does not end with
    [.plain] is written under the identifier with its separators normalized
    to forward slashes and, when the normalized name ends with [.bmp], with
    exactly that extension removed: the written name has no backslash, and
    with [.bmp] put back it is the normalized name. *)
Theorem image_name_normalized uuid_hex zip_in file_name new_name output_data :
  Py.endswith file_name ".plain" = false ->
  in_image_subtree file_name = true ->
  convert_entry uuid_hex zip_in file_name = Ok (Some (new_name, output_data)) ->
  exists t,
    new_name = (uuid_hex ++ "/" ++ t)%string
    /\ (if Py.endswith (normalized file_name) ".bmp"
        then (t ++ ".bmp")%string = normalized file_name
        else t = normalized file_name)
    /\ Py.contains "\" t = false.
Proof.
  intros Hplain Himg H. unfold convert_entry in H.
  destruct (existsb _ _) eqn:Hmeta; [discriminate|].
  destruct (zip_read zip_in file_name) as [data|e]; [|discriminate].
  cbn [bind] in H.
  destruct (String.eqb file_name "ni" || String.eqb file_name "nm") eqn:Hidx.
  { apply orb_true_iff in Hidx.
    destruct Hidx as [Hn|Hn]; apply String.eqb_eq in Hn; subst file_name;
      vm_compute in Himg; discriminate. }
  rewrite Hplain in H. unfold in_image_subtree in Himg. rewrite Himg in H.
  fold (normalized file_name) in H.
  destruct (encrypt_first_512_bytes data lunii_generic_key) as [out|e];
    [|discriminate].
  cbn [bind] in H. injection H as <- _.
  eexists. split; [reflexivity|].
  apply stripped_name; [reflexivity | reflexivity | apply no_backslash_normalized].
Qed.

Lemma image_name_normalized_witness :
  exists t,
    (zero_hex ++ "/rf/000/a")%string = (zero_hex ++ "/" ++ t)%string
    /\ (t ++ ".bmp")%string = "rf/000/a.bmp"%string
    /\ Py.contains "\" t = false.
Proof.
  eapply (image_name_normalized zero_hex colliding_archive "rf\000\a.bmp"
            (zero_hex ++ "/rf/000/a"));
    vm_compute; reflexivity.
Defined.

(** X12. An entry in the audio subtree, and not in the image subtree, whose
    name does not end with [.plain] is written under the identifier with its
    separators normalized to forward slashes and, when the normalized name
    ends with [.mp3], with exactly that extension removed. *)
Theorem audio_name_normalized uuid_hex zip_in file_name new_name output_data :
  Py.endswith file_name ".plain" = false ->
  in_image_subtree file_name = false ->
  in_audio_subtree file_name = true ->
  convert_entry uuid_hex zip_in file_name = Ok (Some (new_name, output_data)) ->
  exists t,
    new_name = (uuid_hex ++ "/" ++ t)%string
    /\ (if Py.endswith (normalized file_name) ".mp3"
        then (t ++ ".mp3")%string = normalized file_name
        else t = normalized file_name)
    /\ Py.contains "\" t = false.
Proof.
  intros Hplain Himg Haud H. unfold convert_entry in H.
  destruct (existsb _ _) eqn:Hmeta; [discriminate|].
  destruct (zip_read zip_in file_name) as [data|e]; [|discriminate].
  cbn [bind] in H.
  destruct (String.eqb file_name "ni" || String.eqb file_name "nm") eqn:Hidx.
  { apply orb_true_iff in Hidx.
    destruct Hidx as [Hn|Hn]; apply String.eqb_eq in Hn; subst file_name;
      vm_compute in Haud; discriminate. }
  rewrite Hplain in H.
  unfold in_image_subtree in Himg. rewrite Himg in H.
  unfold in_audio_subtree in Haud. rewrite Haud in H.
  fold (normalized file_name) in H.
  destruct (encrypt_first_512_bytes data lunii_generic_key) as [out|e];
    [|discriminate].
  cbn [bind] in H. injection H as <- _.
  eexists. split; [reflexivity|].
  apply stripped_name; [reflexivity | reflexivity | apply no_backslash_normalized].
Qed.

Lemma audio_name_normalized_witness :
  exists t,
    (zero_hex ++ "/pack/sf/000/b")%string = (zero_hex ++ "/" ++ t)%string
    /\ (t ++ ".mp3")%string = "pack/sf/000/b.mp3"%string
    /\ Py.contains "\" t = false.
Proof.
  eapply (audio_name_normalized zero_hex audio_archive "pack\sf\000\b.mp3"
            (zero_hex ++ "/pack/sf/000/b"));
    vm_compute; reflexivity.
Defined.

(** ** Names with the suffix [.plain] *)

Lemma convert_entry_plain_suffix_only_witness :
  convert_entry zero_hex small_archive "si.plain"
  = (output_data <- encrypt_first_512_bytes (repeat x2a 600) lunii_generic_key ;;
     Ok (Some ((zero_hex ++ "/si")%string, output_data))).
Proof.
  apply (convert_entry_plain_suffix_only zero_hex small_archive "si" (repeat x2a 600));
    reflexivity.
Defined.

(** ** The sizes of the written entries *)

(** X14. Every entry written to the destination, also by a conversion that
    fails later, comes from an entry of the source: it has the name that
    the classification of the source name gives and as many bytes as the
    source entry. *)
Theorem written_entries_keep_size w input_path output_path zip_in uuid_bytes :
  open_read w input_path = Ok zip_in ->
  zip_read zip_in "uuid.bin" = Ok uuid_bytes ->
  Forall (fun e =>
            exists file_name data,
              In (file_name, Ok data) zip_in
              /\ names_for (hex_upper uuid_bytes) file_name = [fst e]
              /\ List.length (snd e) = List.length data)
    (written (convert_plain_to_v2 w input_path output_path)).
Proof.
  intros Hz Hr.
  destruct (convert_plain_to_v2_cases w input_path output_path)
    as [[-> _] | (z & b & dst & Hz' & Hr' & _ & _ & ->)]; [constructor|].
  rewrite Hz in Hz'. injection Hz' as <-.
  rewrite Hr in Hr'. injection Hr' as <-.
  destruct (convert_entries_entries (hex_upper uuid_bytes) zip_in
              (namelist zip_in) new_writer) as (added & Heq & Hall).
  destruct (convert_entries _ _ _ _) as [zip_out failure].
  cbn [written fst] in *. rewrite Heq. cbn [entries new_writer app].
  eapply Forall_impl; [|exact Hall].
  intros [new_name output_data] (file_name & Hin & Hconv).
  rewrite convert_entry_by_disposition in Hconv.
  unfold names_for. cbn [fst snd].
  destruct (classify file_name) as [|t|t|] eqn:Hc; try discriminate;
    (destruct (zip_read zip_in file_name) as [data|e] eqn:Hread; [|discriminate]);
    cbn [bind] in Hconv; try discriminate;
    apply zip_read_In_entry in Hread; exists file_name, data; rewrite Hc.
  - injection Hconv as <- <-. repeat split. exact Hread.
  - destruct (encrypt_first_512_bytes data lunii_generic_key) as [out|e] eqn:Henc;
      [|discriminate].
    cbn [bind] in Hconv. injection Hconv as <- <-.
    split; [exact Hread|]. split; [reflexivity|].
    now apply (encrypt_first_512_bytes_Ok_length data lunii_generic_key).
Qed.

Lemma written_entries_keep_size_witness :
  Forall (fun e =>
            exists file_name data,
              In (file_name, Ok data) small_archive
              /\ names_for zero_hex file_name = [fst e]
              /\ List.length (snd e) = List.length data)
    (written (convert_plain_to_v2 (world_of small_archive) story_path None)).
Proof.
  apply (written_entries_keep_size (world_of small_archive) story_path None
           small_archive (repeat x00 16)); reflexivity.
Defined.

(** ** What can fail in the loop *)

(** X15. The body of the loop raises on an entry in two cases only.  Reading
    the entry raises, and the body reads every entry but those of the three
    metadata names before it looks at the name, so that an unknown entry
    that cannot be read ends the conversion; the exception is that of the
    read.  Or the entry is one to transform and the cipher refuses its head:
    the entry is not empty, its head has a length that is not a multiple of
    4 or is under 8, and the exception is a [ValueError]. *)
Theorem loop_failure_is_read_or_cipher uuid_hex zip_in file_name e :
  convert_entry uuid_hex zip_in file_name = Raise e ->
  classify file_name <> Drop
  /\ (zip_read zip_in file_name = Raise e
      \/ exists t data msg,
           classify file_name = TransformAndRename t
           /\ zip_read zip_in file_name = Ok data
           /\ data <> []
           /\ ~ encryptable data
           /\ e = ValueError msg).
Proof.
  intros Hraise. rewrite convert_entry_by_disposition in Hraise.
  destruct (classify file_name) as [|t|t|] eqn:Hc; [discriminate| | |];
    (split; [discriminate|]);
    (destruct (zip_read zip_in file_name) as [data|e'] eqn:Hread;
       [|cbn [bind] in Hraise; left; congruence]);
    cbn [bind] in Hraise; try discriminate.
  right.
  destruct (encrypt_first_512_bytes data lunii_generic_key) as [out|e'] eqn:Henc;
    [discriminate|].
  cbn [bind] in Hraise. injection Hraise as ->.
  assert (Hne : data <> []).
  { intros ->. discriminate Henc. }
  assert (Hnot : ~ encryptable data).
  { intros Hable. destruct (encryptable_Ok data Hable) as [out Hout]. congruence. }
  rewrite (encrypt_first_512_bytes_nonempty data lunii_generic_key Hne) in Henc.
  destruct (XXTEAFacts.encrypt_rejects (head_of data) lunii_generic_key
              (1 + 208 / Py.len (head_of data))) as [msg Hmsg].
  - intros Hacc.
    rewrite (XXTEAFacts.encrypt_accepts _ _ _ Hacc) in Henc. discriminate Henc.
  - rewrite Hmsg in Henc. cbn [bind] in Henc. injection Henc as <-.
    exists t, data, msg. repeat split; auto.
Qed.

Lemma loop_failure_is_read_or_cipher_witness :
  (classify "notes.txt" <> Drop
   /\ (zip_read unreadable_archive "notes.txt"
       = Raise (OSError "Bad CRC-32 for file 'notes.txt'")
       \/ exists t data msg,
            classify "notes.txt" = TransformAndRename t
            /\ zip_read unreadable_archive "notes.txt" = Ok data
            /\ data <> []
            /\ ~ encryptable data
            /\ OSError "Bad CRC-32 for file 'notes.txt'" = ValueError msg))
  /\ classify "notes.txt" = Unknown.
Proof.
  split; [|reflexivity].
  apply (loop_failure_is_read_or_cipher zero_hex unreadable_archive "notes.txt").
  vm_compute. reflexivity.
Defined.

(** ** What the written entries depend on *)

(** X16. The entries that a conversion writes, and whether and how it fails in
    its loop, depend on the source archive alone: two calls that come to
    their loops on the same archive, from whatever source paths, to whatever
    destinations (each another file than its source) and in whatever file
    systems, write the same entries in the same order, and both return their
    destination or both raise the same exception. *)
Theorem written_depends_on_archive_only w1 w2 input1 input2 output1 output2
    zip_in uuid_bytes dst1 dst2 :
  enters_loop w1 input1 output1 zip_in uuid_bytes dst1 ->
  enters_loop w2 input2 output2 zip_in uuid_bytes dst2 ->
  other_file w1 dst1 input1 ->
  other_file w2 dst2 input2 ->
  written (convert_plain_to_v2 w1 input1 output1)
  = written (convert_plain_to_v2 w2 input2 output2)
  /\ ((outcome (convert_plain_to_v2 w1 input1 output1) = Ok dst1
       /\ outcome (convert_plain_to_v2 w2 input2 output2) = Ok dst2)
      \/ exists e,
           outcome (convert_plain_to_v2 w1 input1 output1) = Raise e
           /\ outcome (convert_plain_to_v2 w2 input2 output2) = Raise e).
Proof.
  intros H1 H2 _ _.
  rewrite (convert_plain_to_v2_loop _ _ _ _ _ _ H1),
          (convert_plain_to_v2_loop _ _ _ _ _ _ H2).
  destruct (convert_entries _ _ _ _) as [zip_out [e|]]; cbn [written outcome].
  - split; [reflexivity|]. right. exists e. split; reflexivity.
  - split; [reflexivity|]. left. split; reflexivity.
Qed.

Lemma written_depends_on_archive_only_witness :
  written (convert_plain_to_v2 (world_of small_archive) story_path None)
  = written (convert_plain_to_v2 (world_of small_archive)
               {| anchor := ""; parts := ["a.plain.pk"]%string |}
               (Some {| anchor := ""; parts := ["out"; "b.zip"]%string |}))
  /\ ((outcome (convert_plain_to_v2 (world_of small_archive) story_path None)
       = Ok zero_destination
       /\ outcome (convert_plain_to_v2 (world_of small_archive)
                     {| anchor := ""; parts := ["a.plain.pk"]%string |}
                     (Some {| anchor := ""; parts := ["out"; "b.zip"]%string |}))
          = Ok {| anchor := ""; parts := ["out"; "b.zip"]%string |})
      \/ exists e,
           outcome (convert_plain_to_v2 (world_of small_archive) story_path None)
           = Raise e
           /\ outcome (convert_plain_to_v2 (world_of small_archive)
                         {| anchor := ""; parts := ["a.plain.pk"]%string |}
                         (Some {| anchor := ""; parts := ["out"; "b.zip"]%string |}))
              = Raise e).
Proof.
  apply (written_depends_on_archive_only (world_of small_archive)
           (world_of small_archive) story_path
           {| anchor := ""; parts := ["a.plain.pk"]%string |} None
           (Some {| anchor := ""; parts := ["out"; "b.zip"]%string |})
           small_archive (repeat x00 16)).
  - repeat split.
  - repeat split.
  - split; [discriminate | reflexivity].
  - split; [discriminate | reflexivity].
Defined.
